(** * Economic-Indicator dashboard: the fetch / normalise / trend / chart pipeline

    A shallow embedding of [app.py].  The script is a Streamlit page: a
    memoised HTTP fetch against the World Bank API ([fetch_wb_data]), a
    reshape of the returned records into a pandas frame, one plotly line
    per country and, optionally, one fitted trend line per selected
    country.

    Conventions of the embedding
    - Python values that come out of [response.json()] are terms of [json].
    - Python exceptions are values of [exn]; a computation that may raise
      returns a [result].
    - Numbers are exact rationals ([Q]): the development describes the
      arithmetic the script asks for, not its rounding.
    - The network, the string-to-number parser of pandas and the
      libraries' entry points ([st.cache_data], [pd.to_numeric],
      [np.polyfit], [px.line]) are not part of [app.py]; the network and
      the parser are section variables, the library entry points are
      modelled by what the script relies on and documented where they are
      defined.
    - A string is a sequence of characters, one [ascii] per character. *)

From stdpp Require Import gmap strings list pretty.
From Stdlib Require Import Ascii QArith Qfield Lia.

Set Warnings "-register-all".

Local Open Scope string_scope.
Local Open Scope list_scope.
Local Open Scope Z_scope.

(** ** Python values and exceptions *)

Inductive json : Type :=
| JNull
| JBool (b : bool)
| JNum (q : Q)
| JStr (s : string)
| JArr (l : list json)
| JObj (m : list (string * json)).

Inductive exn : Type :=
| KeyError (k : string)
| ValueError
| TypeError
| ConnectionError
| JSONDecodeError.

(** A Python computation returns ([Ok]) or raises ([Raise]).  The third
    case, [Unmodelled], marks an input on which the libraries' behaviour is
    not described by this development; nothing is claimed about it. *)
Inductive result (A : Type) : Type :=
| Ok (a : A)
| Raise (e : exn)
| Unmodelled.
Arguments Ok {A} a.
Arguments Raise {A} e.
Arguments Unmodelled {A}.

Definition rbind {A B} (r : result A) (k : A -> result B) : result B :=
  match r with
  | Ok a => k a
  | Raise e => Raise e
  | Unmodelled => Unmodelled
  end.

Declare Scope result_scope.
Delimit Scope result_scope with result.
Notation "'do' x <- r ; k" := (rbind r (fun x => k))
  (at level 10, x name, r at level 100, k at level 200) : result_scope.

(** [len(data)]: lists, dicts and strings have a length, the other JSON
    values raise [TypeError]. *)
Definition py_len (v : json) : result Z :=
  match v with
  | JArr l => Ok (Z.of_nat (length l))
  | JObj m => Ok (Z.of_nat (length m))
  | JStr s => Ok (Z.of_nat (String.length s))
  | JNull | JBool _ | JNum _ => Raise TypeError
  end.

(** [data[1]]: the second element of a list, the second character of a
    string; a dict decoded from JSON has string keys only, so the integer
    key 1 is missing. *)
Definition py_getitem1 (v : json) : result json :=
  match v with
  | JArr (_ :: x :: _) => Ok x
  | JStr (String _ (String c _)) => Ok (JStr (String c EmptyString))
  | JObj _ => Raise (KeyError "1")
  | _ => Raise TypeError
  end.

(** Truth value of a Python object, as tested by [if data:]. *)
Definition truthy (v : json) : bool :=
  match v with
  | JNull => false
  | JBool b => b
  | JNum q => negb (Qeq_bool q 0)
  | JStr s => negb (String.eqb s "")
  | JArr l => match l with [] => false | _ => true end
  | JObj m => match m with [] => false | _ => true end
  end.

Definition truthy_opt (d : option json) : bool :=
  match d with
  | None => false
  | Some v => truthy v
  end.

(** ** The request sent by [fetch_wb_data] *)

Definition BASE_URL : string := "https://api.worldbank.org/v2".

(** [sep.join(l)] *)
Fixpoint join (sep : string) (l : list string) : string :=
  match l with
  | [] => ""
  | x :: t =>
      match t with
      | [] => x
      | _ => x +:+ sep +:+ join sep t
      end
  end.

Record request : Type := {
  req_url : string;
  req_params : list (string * string)
}.

Definition build_request (indicator : string) (country : list string)
           (start_date end_date : Z) : request :=
  let country := join ";" country in
  {| req_url := BASE_URL +:+ "/country/" +:+ country +:+ "/indicator/" +:+ indicator;
     req_params := [("format", "json"); ("per_page", "1000");
                    ("date", pretty start_date +:+ ":" +:+ pretty end_date)] |}.

(** What [requests.get] hands back: a status code and a body that decodes
    as JSON ([Some]) or does not ([None]). *)
Record response : Type := {
  status_code : Z;
  body : option json
}.

Definition response_json (r : response) : result json :=
  match body r with
  | Some v => Ok v
  | None => Raise JSONDecodeError
  end.

(** Lines 34-38: what [fetch_wb_data] does with the response. *)
Definition fetch_result (r : response) : result (option json) :=
  if status_code r =? 200 then
    (do data <- response_json r;
     do n <- py_len data;
     if 1 <? n then
       (do x <- py_getitem1 data; Ok (Some x))
     else Ok None)%result
  else Ok None.

(** ** The page's host: the network and the memoisation cache

    [requests.get] talks to the outside world.  The world is a state [W]
    and [http_get] is the one transition the script can trigger: it
    consumes a request and yields either a response or a transport
    failure.  The host records every request that went out. *)

Inductive net_reply : Type :=
| Reply (r : response)
| TransportFailure.

(** The arguments of one [fetch_wb_data] call; [st.cache_data] keys its
    store on them. *)
Definition fetch_args : Type := (string * list string * Z * Z)%type.

Record host (W : Type) : Type := {
  cache : gmap fetch_args (option json);
  world : W;
  sent : list request
}.
Arguments cache {W} h.
Arguments world {W} h.
Arguments sent {W} h.

Section Host.
Context {W : Type}.
Variable http_get : request -> W -> net_reply * W.

(** Computations that run on the host: they may change it, and they
    return or raise. *)
Definition M (A : Type) : Type := host W -> result A * host W.

Definition requests_get (rq : request) : M response := fun h =>
  let (rep, w') := http_get rq (world h) in
  let h' := {| cache := cache h; world := w'; sent := sent h ++ [rq] |} in
  match rep with
  | Reply r => (Ok r, h')
  | TransportFailure => (Raise ConnectionError, h')
  end.

(** The body of [fetch_wb_data] (lines 22-38), without its decorator. *)
Definition fetch_wb_data_body (a : fetch_args) : M (option json) := fun h =>
  let '(indicator, country, start_date, end_date) := a in
  let (r, h') := requests_get (build_request indicator country start_date end_date) h in
  (rbind r fetch_result, h').

(** [@st.cache_data] with its defaults (no [ttl], no [max_entries]): a
    call whose arguments are in the store returns the stored value and
    does not run the body; otherwise the body runs and, when it returns,
    its value is stored under the arguments.  A body that raises stores
    nothing.  The script never clears the store. *)
Definition cache_data (f : fetch_args -> M (option json)) (a : fetch_args)
  : M (option json) := fun h =>
  match cache h !! a with
  | Some v => (Ok v, h)
  | None =>
      match f a h with
      | (Ok v, h') =>
          (Ok v, {| cache := <[a := v]> (cache h'); world := world h'; sent := sent h' |})
      | (r, h') => (r, h')
      end
  end.

Definition fetch_wb_data : fetch_args -> M (option json) :=
  cache_data fetch_wb_data_body.

(** A run of several [fetch_wb_data] calls, one after the other, whatever
    each of them returns or raises. *)
Fixpoint fetch_many (calls : list fetch_args) (h : host W) : host W :=
  match calls with
  | [] => h
  | a :: rest => fetch_many rest (snd (fetch_wb_data a h))
  end.
End Host.

(** ** Python dicts and the two static catalogues (lines 41-70) *)

Fixpoint dict_get {A : Type} (k : string) (d : list (string * A)) : option A :=
  match d with
  | [] => None
  | (k', v) :: t => if String.eqb k k' then Some v else dict_get k t
  end.

(** [d[k]] *)
Definition subscript {A : Type} (d : list (string * A)) (k : string) : result A :=
  match dict_get k d with
  | Some v => Ok v
  | None => Raise (KeyError k)
  end.

Definition wb_indicators : list (string * string) :=
  [ ("NY.GDP.MKTP.CD", "GDP (current US$)");
    ("NY.GDP.PCAP.CD", "GDP per capita (current US$)");
    ("FP.CPI.TOTL.ZG", "Inflation, consumer prices (annual %)");
    ("NE.TRD.GNFS.ZS", "Trade (% of GDP)");
    ("BN.CAB.XOKA.GD.ZS", "Current Account Balance (% of GDP)");
    ("FI.RES.TOTL.CD", "Total reserves");
    ("SL.UEM.TOTL.ZS", "Unemployment rate");
    ("NY.GDP.MKTP.KD.ZG", "GDP growth (annual %)");
    ("BX.KLT.DINV.WD.GD.ZS", "Foreign direct investment (% of GDP)");
    ("GC.DOD.TOTL.GD.ZS", "Government debt to GDP (%)") ].

Definition countries : list (string * string) :=
  [ ("USA", "United States");
    ("CHN", "China");
    ("JPN", "Japan");
    ("DEU", "Germany");
    ("GBR", "United Kingdom");
    ("FRA", "France");
    ("IND", "India");
    ("BRA", "Brazil");
    ("CAN", "Canada");
    ("AUS", "Australia");
    ("KOR", "South Korea");
    ("RUS", "Russia");
    ("ZAF", "South Africa");
    ("MEX", "Mexico") ].

(** ** pandas: frames and columns

    A frame is stored by column; every column has one cell per row.  A cell
    is a Python object; [JNull] stands for a missing cell ([None] or NaN),
    which pandas treats alike in every operation the script uses. *)

Definition record : Type := list (string * json).
Definition DataFrame : Type := list (string * list json).

(** The values of a list in the order of their first appearance. *)
Fixpoint unique (l : list string) : list string :=
  match l with
  | [] => []
  | x :: t => x :: List.filter (fun y => negb (String.eqb x y)) (unique t)
  end.

Definition cell_of (k : string) (r : record) : json :=
  match dict_get k r with
  | Some v => v
  | None => JNull
  end.

(** [pd.DataFrame(data)] for a list of dicts: one row per dict in list
    order, one column per key that occurs in some dict, a missing cell
    where a dict lacks the key. *)
Definition pd_DataFrame (data : list record) : DataFrame :=
  map (fun k => (k, map (cell_of k) data))
      (unique (concat (map (map fst) data))).

(** The script hands [pd.DataFrame] whatever [fetch_wb_data] returned.  The
    development covers the shape the endpoint documents, a list of
    dicts. *)
Fixpoint as_records (l : list json) : result (list record) :=
  match l with
  | [] => Ok []
  | JObj m :: t => rbind (as_records t) (fun rs => Ok (m :: rs))
  | _ :: _ => Unmodelled
  end.

(** Some dict of the list has the key: the frame has the column. *)
Definition has_key (k : string) (data : list record) : Prop :=
  exists r, r ∈ data /\ dict_get k r <> None.

(** [df[k]] *)
Definition getitem (df : DataFrame) (k : string) : result (list json) :=
  subscript df k.

(** [df[k] = col] *)
Fixpoint setitem (df : DataFrame) (k : string) (col : list json) : DataFrame :=
  match df with
  | [] => [(k, col)]
  | (k', c) :: t =>
      if String.eqb k k' then (k, col) :: t else (k', c) :: setitem t k col
  end.

(** The frame has [n] rows: every column has [n] cells. *)
Definition rows_are (n : nat) (df : DataFrame) : Prop :=
  Forall (fun kc => length (snd kc) = n) df.

(** [xs[mask]]: the entries at which the mask holds, in order. *)
Fixpoint select {A : Type} (mask : list bool) (l : list A) : list A :=
  match mask, l with
  | b :: m, x :: t => if b then x :: select m t else select m t
  | _, _ => []
  end.

(** One cell of [column == country]. *)
Definition cell_is (country : string) (c : json) : bool :=
  match c with
  | JStr s => String.eqb s country
  | _ => false
  end.

(** A cell of a numeric column: a number or missing. *)
Definition numeric_cell (c : json) : Prop :=
  c = JNull \/ exists q, c = JNum q.

(** One cell of [column.fillna(0)]. *)
Definition fillna0 (c : json) : json :=
  match c with
  | JNull => JNum 0
  | _ => c
  end.

Section Parser.
(** How pandas reads a non-empty string as a number: [Some (Some q)] for a
    number, [Some None] for a spelling of NaN, [None] when the string is
    not a number. *)
Variable parse_numeric : string -> option (option Q).

(** One cell of [pd.to_numeric]: numbers stay, booleans count as 1 and 0,
    a missing cell stays missing, an object of length zero (the empty
    string, list or dict) is read as missing, any other string is parsed,
    and any other list or dict is not convertible. *)
Definition to_numeric_cell (c : json) : result json :=
  match c with
  | JNull => Ok JNull
  | JNum q => Ok (JNum q)
  | JBool b => Ok (JNum (if b then 1 else 0))
  | JStr EmptyString | JArr [] | JObj [] => Ok JNull
  | JStr s =>
      match parse_numeric s with
      | Some (Some q) => Ok (JNum q)
      | Some None => Ok JNull
      | None => Raise ValueError
      end
  | JArr _ | JObj _ => Raise TypeError
  end.

(** [pd.to_numeric(col)]: the first cell that is not convertible raises. *)
Fixpoint to_numeric (col : list json) : result (list json) :=
  match col with
  | [] => Ok []
  | c :: t =>
      rbind (to_numeric_cell c) (fun c' =>
      rbind (to_numeric t) (fun t' => Ok (c' :: t')))
  end.

(** [pd.to_numeric(col, errors='coerce')]: a cell that is not convertible
    becomes missing. *)
Definition coerce_cell (c : json) : json :=
  match to_numeric_cell c with
  | Ok c' => c'
  | _ => JNull
  end.

Definition to_numeric_coerce (col : list json) : list json :=
  map coerce_cell col.

(** Lines 120-122. *)
Definition normalize (data : list record) : result DataFrame :=
  let df := pd_DataFrame data in
  (do d <- getitem df "date";
   do d' <- to_numeric d;
   let df := setitem df "date" d' in
   do v <- getitem df "value";
   let df := setitem df "value" (to_numeric_coerce v) in
   Ok df)%result.

(** The frame lines 120-122 arrive at when no step raises: the frame of
    the records with its date and value columns converted. *)
Definition normalized (data : list record) : DataFrame :=
  setitem
    (setitem (pd_DataFrame data) "date"
             (to_numeric_coerce (map (cell_of "date") data)))
    "value" (to_numeric_coerce (map (cell_of "value") data)).

(** A value that is not a number: a non-empty string that does not read as
    one, a non-empty list or dict. *)
Definition non_numeric (c : json) : Prop :=
  match c with
  | JStr EmptyString => False
  | JStr s => parse_numeric s = None
  | JArr (_ :: _) | JObj (_ :: _) => True
  | _ => False
  end.

(** A record as the endpoint documents it: a country code, a year given
    as a string that reads as a number, and a value field of any
    content. *)
Definition well_formed_record (r : record) : Prop :=
  (exists code, dict_get "countryiso3code" r = Some (JStr code))
  /\ (exists s y, dict_get "date" r = Some (JStr s)
                  /\ s <> "" /\ parse_numeric s = Some (Some y))
  /\ dict_get "value" r <> None.
End Parser.

(** ** numpy: the degree-1 fit

    [np.polyfit(x, y, 1)] sets up the two-column system [x_i * a + b = y_i],
    divides each column by its Euclidean norm and asks [lstsq] for the
    least-squares solution, which for a rank-deficient system is the one of
    minimum norm; the coefficients are then divided by the column norms
    again.  In exact arithmetic this is:
    - when the abscissae are not all equal, the ordinary least-squares
      line;
    - when they are all equal to some [x0 <> 0] (in particular for a single
      point), the system has rank one and the minimum-norm solution in the
      scaled unknowns is the line with [a * x0 = b = mean(y) / 2];
    - when they are all zero the first column has norm zero and the
      division yields NaN; that case is left out.
    A rank-deficient fit makes numpy emit a warning, not an exception. *)

Definition Qsum (l : list Q) : Q := fold_right Qplus 0%Q l.

Record fit_sums : Type := {
  s_n : Q;   (* number of points *)
  s_x : Q;   (* sum of x *)
  s_y : Q;   (* sum of y *)
  s_xx : Q;  (* sum of x^2 *)
  s_xy : Q   (* sum of x*y *)
}.

Definition sums (xs ys : list Q) : fit_sums :=
  {| s_n := inject_Z (Z.of_nat (length xs));
     s_x := Qsum xs;
     s_y := Qsum ys;
     s_xx := Qsum (map (fun x => x * x)%Q xs);
     s_xy := Qsum (zip_with Qmult xs ys) |}.

(** [n * Sxx - Sx^2]: zero exactly when all abscissae are equal. *)
Definition spread (s : fit_sums) : Q :=
  (s_n s * s_xx s - s_x s * s_x s)%Q.

(** The coefficients [(slope, intercept)], highest degree first as in
    numpy, as reduced fractions, from the five sums. *)
Definition lstsq_line (s : fit_sums) : result (Q * Q) :=
  if negb (Qeq_bool (spread s) 0) then
    Ok (Qred ((s_n s * s_xy s - s_x s * s_y s) / spread s),
        Qred ((s_xx s * s_y s - s_x s * s_xy s) / spread s))%Q
  else if Qeq_bool (s_x s) 0 then Unmodelled
  else
    Ok (Qred (s_y s / (2 * s_x s)), Qred (s_y s / (2 * s_n s)))%Q.

(** [np.polyfit(xs, ys, 1)] on numbers: an empty [xs] and vectors of
    different lengths are rejected with [TypeError]. *)
Definition polyfit1 (xs ys : list Q) : result (Q * Q) :=
  match xs with
  | [] => Raise TypeError
  | _ =>
      if negb (Nat.eqb (length xs) (length ys)) then Raise TypeError
      else lstsq_line (sums xs ys)
  end.

(** The numbers of a numeric column, when none is missing. *)
Fixpoint floats (col : list json) : option (list Q) :=
  match col with
  | [] => Some []
  | JNum q :: t => option_map (cons q) (floats t)
  | _ :: _ => None
  end.

(** [np.polyfit(x, y, 1)] on two columns.  A missing abscissa or ordinate
    makes the system contain NaN; that case is left out. *)
Definition np_polyfit (x y : list json) : result (Q * Q) :=
  match floats x, floats y with
  | Some xs, Some ys => polyfit1 xs ys
  | _, _ => Unmodelled
  end.

(** [np.poly1d(z)(x)] at one number and over a column. *)
Definition poly1d (z : Q * Q) (x : Q) : Q := Qred (fst z * x + snd z).

Definition poly1d_col (z : Q * Q) (col : list json) : list json :=
  map (fun c => match c with
                | JNum x => JNum (poly1d z x)
                | _ => JNull
                end) col.

(** ** plotly: traces and figures *)

Record trace : Type := {
  name : string;
  xs : list json;
  ys : list json;
  line_dash : option string;
  opacity : option Q
}.

Record figure : Type := {
  title : string;
  legend_title : string;
  value_label : string;
  height : option Z;
  data : list trace
}.

(** The strings of a column of strings.  [px.line] groups the rows by the
    colour column; the development covers a colour column of strings. *)
Fixpoint strings (col : list json) : result (list string) :=
  match col with
  | [] => Ok []
  | JStr s :: t => rbind (strings t) (fun ss => Ok (s :: ss))
  | _ :: _ => Unmodelled
  end.

(** A column named as an argument of [px.line] has to exist. *)
Definition px_column (df : DataFrame) (k : string) : result (list json) :=
  match dict_get k df with
  | Some c => Ok c
  | None => Raise ValueError
  end.

(** The raw series of one country code: its rows, in frame order. *)
Definition raw_trace (x y c : list json) (code : string) : trace :=
  {| name := code;
     xs := select (map (cell_is code) c) x;
     ys := select (map (cell_is code) c) y;
     line_dash := None;
     opacity := None |}.

(** [px.line(df, x='date', y='value', color='countryiso3code', labels=..,
    title=..)] (lines 125-132): one trace per distinct value of the colour
    column, in order of first appearance. *)
Definition px_line (df : DataFrame) (label ttl : string) : result figure :=
  (do x <- px_column df "date";
   do y <- px_column df "value";
   do c <- px_column df "countryiso3code";
   do codes <- strings c;
   Ok {| title := ttl;
         legend_title := "Country";
         value_label := label;
         height := None;
         data := map (raw_trace x y c) (unique codes) |})%result.

(** [fig.add_trace(t)] *)
Definition add_trace (fig : figure) (t : trace) : figure :=
  {| title := title fig;
     legend_title := legend_title fig;
     value_label := value_label fig;
     height := height fig;
     data := data fig ++ [t] |}.

(** [fig.update_layout(height=700, ...)] *)
Definition update_layout (fig : figure) : figure :=
  {| title := title fig;
     legend_title := legend_title fig;
     value_label := value_label fig;
     height := Some 700;
     data := data fig |}.

(** ** The trend of one country (lines 136-148) *)

Record TrendLine : Type := {
  slope : Q;
  intercept : Q;
  points_x : list json;
  points_y : list json
}.

(** [country_data = df[df['countryiso3code'] == country]], the emptiness
    test, the fit [z] and the predictions [p(country_data['date'])].
    [Ok None] is the branch in which nothing is fitted. *)
Definition estimate (df : DataFrame) (country : string) : result (option TrendLine) :=
  (do c <- getitem df "countryiso3code";
   let mask := map (cell_is country) c in
   match select mask c with
   | [] => Ok None
   | _ :: _ =>
       do d <- getitem df "date";
       do v <- getitem df "value";
       let cx := select mask d in
       do z <- np_polyfit cx (map fillna0 (select mask v));
       Ok (Some {| slope := fst z;
                   intercept := snd z;
                   points_x := cx;
                   points_y := poly1d_col z cx |})
   end)%result.

(** The [go.Scatter] of lines 141-147. *)
Definition trend_trace (df : DataFrame) (country : string) : result (option trace) :=
  (do tl <- estimate df country;
   match tl with
   | None => Ok None
   | Some tl =>
       do label <- subscript countries country;
       Ok (Some {| name := label +:+ " trend";
                   xs := points_x tl;
                   ys := points_y tl;
                   line_dash := Some "dash";
                   opacity := Some (1 # 2)%Q |})
   end)%result.

(** The loop of lines 135-148. *)
Fixpoint add_trends (df : DataFrame) (selected_countries : list string)
         (fig : figure) : result figure :=
  match selected_countries with
  | [] => Ok fig
  | country :: rest =>
      rbind (trend_trace df country) (fun t =>
      add_trends df rest
        match t with
        | Some t => add_trace fig t
        | None => fig
        end)
  end.

(** The trend trace the loop adds for a country, if it adds one. *)
Definition trend_of (df : DataFrame) (country : string) : option trace :=
  match trend_trace df country with
  | Ok (Some t) => Some t
  | _ => None
  end.

(** The country has a trend line. *)
Definition has_trend (df : DataFrame) (country : string) : bool :=
  match estimate df country with
  | Ok (Some _) => true
  | _ => false
  end.

(** The country cells of the rows that [df[df['countryiso3code'] ==
    country]] keeps. *)
Definition rows_of (df : DataFrame) (country : string) : list json :=
  match getitem df "countryiso3code" with
  | Ok c => select (map (cell_is country) c) c
  | _ => []
  end.

(** The raw and the trend series of a figure: [px.line] draws solid lines,
    the trend traces are dashed. *)
Definition is_trend (t : trace) : bool :=
  match line_dash t with
  | Some _ => true
  | None => false
  end.

Definition raw_series (fig : figure) : list trace :=
  List.filter (fun t => negb (is_trend t)) (data fig).

Definition trend_series (fig : figure) : list trace :=
  List.filter is_trend (data fig).

(** ** The page (lines 106-160) *)

Inductive page : Type :=
| Warning (msg : string)   (* st.warning *)
| Blank                    (* nothing is drawn in the main area *)
| Chart (fig : figure)     (* st.plotly_chart *)
| Error (e : exn)          (* st.error, from the except clause *)
| OutOfModel.

Definition page_of (r : result figure) : page :=
  match r with
  | Ok fig => Chart fig
  | Raise e => Error e
  | Unmodelled => OutOfModel
  end.

Section Page.
Variable parse_numeric : string -> option (option Q).

(** Lines 119-155, the body of [if data:]. *)
Definition chart (d : json) (selected_indicator : string)
           (selected_countries : list string) (show_trend : bool) : result figure :=
  (do recs <- match d with
              | JArr l => as_records l
              | _ => Unmodelled
              end;
   do df <- normalize parse_numeric recs;
   do label <- subscript wb_indicators selected_indicator;
   do fig <- px_line df label (label +:+ " Over Time");
   do fig <- (if show_trend then add_trends df selected_countries fig else Ok fig);
   Ok (update_layout fig))%result.

(** Lines 118-157: what the page shows for a value returned by
    [fetch_wb_data]. *)
Definition render (fetched : option json) (selected_indicator : string)
           (selected_countries : list string) (show_trend : bool) : page :=
  match fetched with
  | Some d =>
      if truthy d
      then page_of (chart d selected_indicator selected_countries show_trend)
      else Blank
  | None => Blank
  end.

Context {W : Type}.
Variable http_get : request -> W -> net_reply * W.

(** Lines 106-160: one run of the page. *)
Definition main (selected_countries : list string) (selected_indicator : string)
           (show_trend : bool) (start_date end_date : Z) (h : host W) : page * host W :=
  match selected_countries with
  | [] => (Warning "Please select at least one country.", h)
  | _ :: _ =>
      let (r, h') :=
        fetch_wb_data http_get
          (selected_indicator, selected_countries, start_date, end_date) h in
      match r with
      | Ok fetched =>
          (render fetched selected_indicator selected_countries show_trend, h')
      | Raise e => (Error e, h')
      | Unmodelled => (OutOfModel, h')
      end
  end.
End Page.

(** ** A reader for plain decimal numerals

    Used to run the definitions on concrete records: digits only, and the
    empty string read as missing. *)

Definition digit_of (c : ascii) : option Z :=
  let n := Z.of_N (N_of_ascii c) in
  if (48 <=? n) && (n <=? 57) then Some (n - 48) else None.

Fixpoint parse_digits (acc : Z) (s : string) : option Z :=
  match s with
  | EmptyString => Some acc
  | String c t =>
      match digit_of c with
      | Some d => parse_digits (10 * acc + d) t
      | None => None
      end
  end.

Definition parse_decimal (s : string) : option (option Q) :=
  match s with
  | EmptyString => Some None
  | _ => option_map (fun z => Some (inject_Z z)) (parse_digits 0 s)
  end.

(** A scripted network: the replies are served in order, and when the
    script runs out the transport fails. *)
Definition scripted (rq : request) (w : list net_reply) : net_reply * list net_reply :=
  match w with
  | [] => (TransportFailure, [])
  | r :: rest => (r, rest)
  end.

Definition fresh_host {W : Type} (w : W) : host W :=
  {| cache := ∅; world := w; sent := [] |}.

(** ** Sample data *)

Definition wb_record (code year : string) (v : json) : record :=
  [("countryiso3code", JStr code); ("date", JStr year); ("value", v)].

Definition sample_records : list record :=
  [ wb_record "USA" "2000" (JNum 5);
    wb_record "CHN" "2000" JNull;
    wb_record "USA" "2001" (JNum 7);
    wb_record "CHN" "2001" (JStr "unavailable") ].

Definition record_without_value : record :=
  [("countryiso3code", JStr "USA"); ("date", JStr "2000")].

Definition metadata : json := JObj [("page", JNum 1); ("pages", JNum 1)].

Definition envelope (recs : list record) : json :=
  JArr [metadata; JArr (map JObj recs)].

Definition ok_response (payload : json) : response :=
  {| status_code := 200; body := Some payload |}.

Definition not_found : response :=
  {| status_code := 404; body := Some (JArr [JObj [("message", JStr "not found")]]) |}.

Definition sample_args : fetch_args := ("NY.GDP.MKTP.CD", ["USA"], 2000, 2020).

Definition other_args : fetch_args := ("NY.GDP.MKTP.CD", ["CHN"], 2000, 2020).

(** The host after one call on a network that answers with the sample
    records. *)
Definition host_after_fetch : host (list net_reply) :=
  snd (fetch_wb_data scripted sample_args
         (fresh_host [Reply (ok_response (envelope sample_records)); Reply not_found])).

(** ** What the specification says about [fetch], word for word

    These are the two sentences of the specification that the script does
    not satisfy as they stand; each is refuted below at a concrete input. *)

Definition two_element_envelope (v : json) : Prop :=
  exists m recs, v = JArr [m; recs].

(** "On any non-success status, or a payload that is not a two-element
    envelope, returns NoData." *)
Definition nodata_unless_envelope : Prop :=
  forall r payload,
    body r = Some payload ->
    status_code r <> 200 \/ ~ two_element_envelope payload ->
    fetch_result r = Ok None.

(** "Calling fetch twice with identical arguments returns bit-identical
    results and triggers at most one network call." *)
Definition two_calls_one_request : Prop :=
  forall (http_get : request -> list net_reply -> net_reply * list net_reply)
         (h : host (list net_reply)) (a : fetch_args),
    let (r1, h1) := fetch_wb_data http_get a h in
    let (r2, h2) := fetch_wb_data http_get a h1 in
    r1 = r2 /\ (length (sent h2) <= S (length (sent h)))%nat.

(** The responses after which the script's [fetch_wb_data] returns
    [None]: a status other than 200, or a list of fewer than two
    elements. *)
Definition no_data_response (r : response) : Prop :=
  status_code r <> 200 \/
  exists l, body r = Some (JArr l) /\ (length l < 2)%nat.

(** ** Notions used to state properties of the host *)

(** The request a call of [fetch_wb_data] sends when it goes to the
    network. *)
Definition request_of (a : fetch_args) : request :=
  let '(indicator, country, start_date, end_date) := a in
  build_request indicator country start_date end_date.


(** ** Notions used to state properties of the fit *)

(** The sum of the squared residuals of the line [z] on the points
    [(x_i, y_i)]. *)
Definition sse (z : Q * Q) (xs ys : list Q) : Q :=
  Qsum (zip_with (fun x y => (y - (fst z * x + snd z)) * (y - (fst z * x + snd z)))%Q
                 xs ys).

(** ** Notions used to state properties of the request *)

(** The character occurs in the string. *)
Fixpoint has_char (c : ascii) (s : string) : bool :=
  match s with
  | EmptyString => false
  | String a t => Ascii.eqb a c || has_char c t
  end.

(** [s.split(sep)] for a separator of one character: how the receiving end
    reads a joined list back. *)
Fixpoint split_on (sep : ascii) (s : string) : list string :=
  match s with
  | EmptyString => [EmptyString]
  | String a t =>
      if Ascii.eqb a sep then EmptyString :: split_on sep t
      else match split_on sep t with
           | w :: ws => String a w :: ws
           | [] => [String a EmptyString]
           end
  end.

(** * Properties *)

(** ** [fetch_wb_data] *)

Lemma fetch_result_second (m recs : json) (rest : list json) :
  fetch_result (ok_response (JArr (m :: recs :: rest))) = Ok (Some recs).
Proof.
  unfold fetch_result, ok_response; cbn [status_code body response_json rbind py_len].
  change (200 =? 200) with true; cbn iota.
  assert (H : (1 <? Z.of_nat (length (m :: recs :: rest))) = true).
  { apply Z.ltb_lt. cbn [length]. lia. }
  rewrite H. reflexivity.
Qed.

Lemma fetch_result_no_data (r : response) :
  no_data_response r -> fetch_result r = Ok None.
Proof.
  intros [Hs | (l & Hb & Hl)]; unfold fetch_result.
  - apply Z.eqb_neq in Hs. rewrite Hs. reflexivity.
  - destruct (status_code r =? 200); [|reflexivity].
    unfold response_json. rewrite Hb. cbn [rbind py_len].
    assert (H : (1 <? Z.of_nat (length l)) = false) by (apply Z.ltb_ge; lia).
    rewrite H. reflexivity.
Qed.

Section HostFacts.
Context {W : Type}.
Variable http_get : request -> W -> net_reply * W.

Lemma requests_get_cache rq (h : host W) :
  cache (snd (requests_get http_get rq h)) = cache h.
Proof.
  unfold requests_get. destruct (http_get rq (world h)) as [[r|] w']; reflexivity.
Qed.

Lemma requests_get_sent rq (h : host W) :
  sent (snd (requests_get http_get rq h)) = sent h ++ [rq].
Proof.
  unfold requests_get. destruct (http_get rq (world h)) as [[r|] w']; reflexivity.
Qed.

Lemma body_cache a (h : host W) :
  cache (snd (fetch_wb_data_body http_get a h)) = cache h.
Proof.
  destruct a as [[[ind c] s] e]. unfold fetch_wb_data_body.
  pose proof (requests_get_cache (build_request ind c s e) h) as H.
  destruct (requests_get http_get (build_request ind c s e) h) as [r h']. exact H.
Qed.

Lemma body_sent a (h : host W) :
  length (sent (snd (fetch_wb_data_body http_get a h))) = S (length (sent h)).
Proof.
  destruct a as [[[ind c] s] e]. unfold fetch_wb_data_body.
  pose proof (requests_get_sent (build_request ind c s e) h) as H.
  destruct (requests_get http_get (build_request ind c s e) h) as [r h'].
  cbn [snd] in *. rewrite H, length_app. cbn. lia.
Qed.

(** A stored value is returned as it is, and the host does not move. *)
Lemma fetch_hit a v (h : host W) :
  cache h !! a = Some v -> fetch_wb_data http_get a h = (Ok v, h).
Proof. intros H. unfold fetch_wb_data, cache_data. rewrite H. reflexivity. Qed.

(** A call whose arguments are not stored sends the request and reads
    the reply. *)
Lemma fetch_miss indicator country start_date end_date r w' (h : host W) :
  cache h !! ((indicator, country, start_date, end_date) : fetch_args) = None ->
  http_get (build_request indicator country start_date end_date) (world h) = (Reply r, w') ->
  fst (fetch_wb_data http_get (indicator, country, start_date, end_date) h)
  = fetch_result r.
Proof.
  intros Hmiss Hnet. unfold fetch_wb_data, cache_data. rewrite Hmiss.
  unfold fetch_wb_data_body, requests_get. rewrite Hnet. cbn [rbind].
  destruct (fetch_result r); reflexivity.
Qed.

(** A call that returns leaves its value in the store. *)
Lemma fetch_stores a v (h h1 : host W) :
  fetch_wb_data http_get a h = (Ok v, h1) -> cache h1 !! a = Some v.
Proof.
  unfold fetch_wb_data, cache_data. destruct (cache h !! a) as [v0|] eqn:Hc.
  - intros [= <- <-]. exact Hc.
  - destruct (fetch_wb_data_body http_get a h) as [[v1|e|] h'];
      intros [= <- <-]. cbn [cache]. apply lookup_insert_eq.
Qed.

(** No call removes or changes a stored value. *)
Lemma fetch_keeps a v b (h : host W) :
  cache h !! a = Some v -> cache (snd (fetch_wb_data http_get b h)) !! a = Some v.
Proof.
  intros Ha. unfold fetch_wb_data, cache_data.
  destruct (cache h !! b) as [v0|] eqn:Hb; [exact Ha|].
  pose proof (body_cache b h) as Hc.
  destruct (fetch_wb_data_body http_get b h) as [[v1|e|] h']; cbn [snd] in *.
  - cbn [cache]. rewrite lookup_insert_ne; [congruence|].
    intros ->. congruence.
  - congruence.
  - congruence.
Qed.

Lemma fetch_many_keeps a v calls (h : host W) :
  cache h !! a = Some v -> cache (fetch_many http_get calls h) !! a = Some v.
Proof.
  revert h. induction calls as [|b calls IH]; intros h Ha; cbn [fetch_many].
  - exact Ha.
  - apply IH, fetch_keeps, Ha.
Qed.

(** One call sends at most one request. *)
Lemma fetch_sent a (h : host W) :
  (length (sent (snd (fetch_wb_data http_get a h))) <= S (length (sent h)))%nat.
Proof.
  unfold fetch_wb_data, cache_data.
  destruct (cache h !! a) as [v0|]; [cbn; lia|].
  pose proof (body_sent a h) as Hs.
  destruct (fetch_wb_data_body http_get a h) as [[v1|e|] h']; cbn [snd sent] in *; lia.
Qed.
End HostFacts.

(** C1 as the specification words it fails: a payload of three elements is
    not a two-element envelope, and the script returns its second element
    rather than NoData. *)
Lemma three_element_payload_is_returned : ~ nodata_unless_envelope.
Proof.
  intros H.
  specialize (H (ok_response (JArr [metadata; JArr [JObj (wb_record "USA" "2000" (JNum 5))]; JNull]))
                (JArr [metadata; JArr [JObj (wb_record "USA" "2000" (JNum 5))]; JNull])
                eq_refl).
  rewrite fetch_result_second in H.
  assert (Hne : ~ two_element_envelope
                  (JArr [metadata; JArr [JObj (wb_record "USA" "2000" (JNum 5))]; JNull])).
  { intros (m & recs & Heq). discriminate Heq. }
  specialize (H (or_intror Hne)). discriminate H.
Qed.

(** C1, amended: a response with status 200 whose payload is a list of at
    least two elements makes [fetch_wb_data] return the second element; a
    status other than 200, or a list of fewer than two elements, makes it
    return [None], and then the page draws nothing and shows no error. *)
Theorem fetch_returns_records_or_nodata
    {W : Type} (http_get : request -> W -> net_reply * W)
    (parse_numeric : string -> option (option Q))
    (h : host W) (indicator : string) (country : list string)
    (show_trend : bool) (start_date end_date : Z) (r : response) (w' : W) :
  country <> [] ->
  cache h !! ((indicator, country, start_date, end_date) : fetch_args) = None ->
  http_get (build_request indicator country start_date end_date) (world h) = (Reply r, w') ->
  (forall m recs rest,
      r = ok_response (JArr (m :: recs :: rest)) ->
      fst (fetch_wb_data http_get (indicator, country, start_date, end_date) h)
      = Ok (Some recs))
  /\ (no_data_response r ->
      fst (fetch_wb_data http_get (indicator, country, start_date, end_date) h) = Ok None
      /\ fst (main parse_numeric http_get country indicator show_trend
                   start_date end_date h) = Blank).
Proof.
  intros Hsel Hmiss Hnet.
  assert (Hfetch : fst (fetch_wb_data http_get (indicator, country, start_date, end_date) h)
                   = fetch_result r).
  { eapply fetch_miss; eassumption. }
  split.
  - intros m recs rest ->. rewrite Hfetch. apply fetch_result_second.
  - intros Hno. pose proof (fetch_result_no_data r Hno) as Hr.
    split; [rewrite Hfetch; exact Hr|].
    unfold main. destruct country as [|c0 cs]; [congruence|].
    rewrite Hr in Hfetch.
    destruct (fetch_wb_data http_get (indicator, c0 :: cs, start_date, end_date) h)
      as [r0 h0]. cbn [fst] in Hfetch. subst r0. reflexivity.
Qed.

Lemma fetch_returns_records_or_nodata_witness :
  fst (fetch_wb_data scripted sample_args
         (fresh_host [Reply (ok_response (envelope sample_records))]))
  = Ok (Some (JArr (map JObj sample_records)))
  /\ fst (fetch_wb_data scripted sample_args (fresh_host [Reply not_found])) = Ok None
  /\ fst (main parse_decimal scripted ["USA"] "NY.GDP.MKTP.CD" true 2000 2020
               (fresh_host [Reply not_found])) = Blank.
Proof.
  split.
  - refine (proj1 (fetch_returns_records_or_nodata scripted parse_decimal
             (fresh_host [Reply (ok_response (envelope sample_records))])
             "NY.GDP.MKTP.CD" ["USA"] true 2000 2020
             (ok_response (envelope sample_records)) [] _ _ _) _ _ _ eq_refl).
    + discriminate.
    + reflexivity.
    + reflexivity.
  - refine (proj2 (fetch_returns_records_or_nodata scripted parse_decimal
             (fresh_host [Reply not_found])
             "NY.GDP.MKTP.CD" ["USA"] true 2000 2020 not_found [] _ _ _) _).
    + discriminate.
    + reflexivity.
    + reflexivity.
    + left. cbn. lia.
Defined.

(** C4 as the specification words it fails: when the transport fails, the
    call raises and nothing is stored, so the same call made again sends a
    second request (and here returns, where the first one raised). *)
Lemma failed_call_is_not_memoised : ~ two_calls_one_request.
Proof.
  intros H.
  specialize (H scripted
                (fresh_host [TransportFailure; Reply (ok_response (envelope sample_records))])
                sample_args).
  vm_compute in H. destruct H as [H _]. discriminate H.
Qed.

(** C4, amended: once a call of [fetch_wb_data] has returned a value, every
    later call with the same arguments returns that same value and leaves
    the host as it is -- no request goes out -- whatever other calls were
    made in between; the first call itself sent at most one request.  The
    stored value has no expiry and the script has no operation that drops
    it. *)
Theorem fetch_memoised
    {W : Type} (http_get : request -> W -> net_reply * W)
    (a : fetch_args) (v : option json) (h h1 : host W) :
  fetch_wb_data http_get a h = (Ok v, h1) ->
  (length (sent h1) <= S (length (sent h)))%nat
  /\ forall calls : list fetch_args,
       fetch_wb_data http_get a (fetch_many http_get calls h1)
       = (Ok v, fetch_many http_get calls h1).
Proof.
  intros Hcall. split.
  - pose proof (fetch_sent http_get a h) as Hs. rewrite Hcall in Hs. exact Hs.
  - intros calls. apply fetch_hit, fetch_many_keeps.
    eapply fetch_stores, Hcall.
Qed.

Lemma fetch_memoised_witness :
  (length (sent host_after_fetch) <= 1)%nat
  /\ fetch_wb_data scripted sample_args host_after_fetch
     = (Ok (Some (JArr (map JObj sample_records))), host_after_fetch)
  /\ fetch_wb_data scripted sample_args (fetch_many scripted [other_args] host_after_fetch)
     = (Ok (Some (JArr (map JObj sample_records))),
        fetch_many scripted [other_args] host_after_fetch).
Proof.
  assert (Hcall : fetch_wb_data scripted sample_args
                    (fresh_host [Reply (ok_response (envelope sample_records)); Reply not_found])
                  = (Ok (Some (JArr (map JObj sample_records))), host_after_fetch)).
  { reflexivity. }
  destruct (fetch_memoised scripted sample_args _ _ _ Hcall) as [Hlen Hlater].
  split; [exact Hlen|].
  split; [exact (Hlater [])|exact (Hlater [other_args])].
Defined.

(** ** The page *)

Section PageFacts.
Context {W : Type}.
Variable http_get : request -> W -> net_reply * W.
Variable parse_numeric : string -> option (option Q).

(** With a selection and nothing stored for the arguments, the page is
    decided by the reply. *)
Lemma main_miss country indicator show_trend start_date end_date r w' (h : host W) :
  country <> [] ->
  cache h !! ((indicator, country, start_date, end_date) : fetch_args) = None ->
  http_get (build_request indicator country start_date end_date) (world h) = (Reply r, w') ->
  fst (main parse_numeric http_get country indicator show_trend start_date end_date h)
  = match fetch_result r with
    | Ok fetched => render parse_numeric fetched indicator country show_trend
    | Raise e => Error e
    | Unmodelled => OutOfModel
    end.
Proof.
  intros Hsel Hmiss Hnet.
  pose proof (fetch_miss http_get _ _ _ _ _ _ h Hmiss Hnet) as Hf.
  unfold main. destruct country as [|c0 cs]; [congruence|].
  destruct (fetch_wb_data http_get (indicator, c0 :: cs, start_date, end_date) h)
    as [r0 h0]. cbn [fst] in Hf. subst r0.
  destruct (fetch_result r); reflexivity.
Qed.
End PageFacts.

(** C9: an envelope whose records element is the empty list makes
    [fetch_wb_data] return the empty list; the page then is the same as for
    [None]: nothing is drawn, no error is shown, and the frame is not built
    (had it been, reading its date column would have raised). *)
Theorem empty_records_like_nodata
    {W : Type} (http_get : request -> W -> net_reply * W)
    (parse_numeric : string -> option (option Q))
    (h : host W) (indicator : string) (country : list string)
    (show_trend : bool) (start_date end_date : Z) (m : json) (w' : W) :
  country <> [] ->
  cache h !! ((indicator, country, start_date, end_date) : fetch_args) = None ->
  http_get (build_request indicator country start_date end_date) (world h)
  = (Reply (ok_response (JArr [m; JArr []])), w') ->
  fst (fetch_wb_data http_get (indicator, country, start_date, end_date) h)
  = Ok (Some (JArr []))
  /\ fst (main parse_numeric http_get country indicator show_trend start_date end_date h)
     = Blank
  /\ render parse_numeric (Some (JArr [])) indicator country show_trend
     = render parse_numeric None indicator country show_trend
  /\ normalize parse_numeric [] = Raise (KeyError "date").
Proof.
  intros Hsel Hmiss Hnet. repeat split.
  - rewrite (fetch_miss http_get _ _ _ _ _ _ h Hmiss Hnet).
    apply fetch_result_second.
  - rewrite (main_miss http_get parse_numeric _ _ _ _ _ _ _ h Hsel Hmiss Hnet).
    rewrite fetch_result_second. reflexivity.
Qed.

Lemma empty_records_like_nodata_witness :
  fst (main parse_decimal scripted ["USA"] "NY.GDP.MKTP.CD" true 2000 2020
            (fresh_host [Reply (ok_response (JArr [metadata; JArr []]))]))
  = Blank.
Proof.
  refine (proj1 (proj2 (empty_records_like_nodata scripted parse_decimal
            (fresh_host [Reply (ok_response (JArr [metadata; JArr []]))])
            "NY.GDP.MKTP.CD" ["USA"] true 2000 2020 metadata [] _ _ _))).
  - discriminate.
  - reflexivity.
  - reflexivity.
Defined.

(** ** Dicts, frames and columns *)

Lemma dict_get_tabulate {A : Type} (f : string -> A) (ks : list string) (k : string) :
  dict_get k (map (fun k => (k, f k)) ks)
  = if bool_decide (k ∈ ks) then Some (f k) else None.
Proof.
  induction ks as [|k0 ks IH]; cbn [map dict_get].
  - reflexivity.
  - destruct (String.eqb_spec k k0) as [->|Hne].
    + rewrite bool_decide_eq_true_2; [reflexivity|apply elem_of_cons; auto].
    + rewrite IH. destruct (bool_decide_reflect (k ∈ ks)) as [Hin|Hnin].
      * rewrite bool_decide_eq_true_2; [reflexivity|apply elem_of_cons; auto].
      * rewrite bool_decide_eq_false_2; [reflexivity|].
        rewrite elem_of_cons. intros [?|?]; auto.
Qed.

Lemma elem_of_filter_neqb (x y : string) (l : list string) :
  y ∈ List.filter (fun z => negb (String.eqb x z)) l <-> y <> x /\ y ∈ l.
Proof.
  rewrite !list_elem_of_In, filter_In.
  destruct (String.eqb_spec x y) as [->|Hne]; cbn; split.
  - intros [_ H]; discriminate H.
  - intros [H _]; congruence.
  - intros [H _]; split; [congruence|exact H].
  - intros [_ H]; split; [exact H|reflexivity].
Qed.

Lemma elem_of_unique (x : string) (l : list string) : x ∈ unique l <-> x ∈ l.
Proof.
  induction l as [|y l IH]; cbn [unique]; [reflexivity|].
  rewrite !elem_of_cons, elem_of_filter_neqb, IH.
  destruct (decide (x = y)); tauto.
Qed.

Lemma NoDup_filter_bool {A : Type} (p : A -> bool) (l : list A) :
  NoDup l -> NoDup (List.filter p l).
Proof.
  induction 1 as [|x l Hx Hl IH]; cbn [List.filter]; [constructor|].
  destruct (p x); [|exact IH].
  constructor; [|exact IH].
  rewrite list_elem_of_In, filter_In, <- list_elem_of_In. tauto.
Qed.

Lemma NoDup_unique (l : list string) : NoDup (unique l).
Proof.
  induction l as [|y l IH]; cbn [unique]; constructor.
  - rewrite elem_of_filter_neqb. tauto.
  - apply NoDup_filter_bool, IH.
Qed.

Lemma dict_get_keys {A : Type} (k : string) (r : list (string * A)) :
  k ∈ map fst r <-> dict_get k r <> None.
Proof.
  induction r as [|[k0 v] r IH]; cbn [map fst dict_get].
  - rewrite elem_of_nil. tauto.
  - rewrite elem_of_cons. destruct (String.eqb_spec k k0) as [->|Hne].
    + split; [discriminate|auto].
    + rewrite IH. tauto.
Qed.

Lemma elem_of_all_keys (k : string) (data : list record) :
  k ∈ concat (map (map fst) data) <-> has_key k data.
Proof.
  unfold has_key. induction data as [|r data IH]; cbn [map concat].
  - rewrite elem_of_nil. split; [tauto|]. intros (r & Hr & _).
    apply elem_of_nil in Hr. exact Hr.
  - rewrite elem_of_app, IH, dict_get_keys. split.
    + intros [H | (r' & Hr' & H)].
      * exists r. split; [apply elem_of_cons; auto|exact H].
      * exists r'. split; [apply elem_of_cons; auto|exact H].
    + intros (r' & Hr' & H). apply elem_of_cons in Hr' as [->|Hr'].
      * left; exact H.
      * right; exists r'; auto.
Qed.

(** The columns of [pd.DataFrame(data)]. *)
Lemma DataFrame_column (k : string) (data : list record) :
  has_key k data -> dict_get k (pd_DataFrame data) = Some (map (cell_of k) data).
Proof.
  intros H. unfold pd_DataFrame.
  rewrite (dict_get_tabulate (fun k => map (cell_of k) data)).
  rewrite bool_decide_eq_true_2; [reflexivity|].
  apply elem_of_unique, elem_of_all_keys, H.
Qed.

Lemma DataFrame_no_column (k : string) (data : list record) :
  ~ has_key k data -> dict_get k (pd_DataFrame data) = None.
Proof.
  intros H. unfold pd_DataFrame.
  rewrite (dict_get_tabulate (fun k => map (cell_of k) data)).
  rewrite bool_decide_eq_false_2; [reflexivity|].
  rewrite elem_of_unique, elem_of_all_keys. exact H.
Qed.

Lemma dict_get_setitem_eq (df : DataFrame) (k : string) (col : list json) :
  dict_get k (setitem df k col) = Some col.
Proof.
  induction df as [|[k0 c] df IH]; cbn [setitem dict_get].
  - rewrite String.eqb_refl. reflexivity.
  - destruct (String.eqb_spec k k0) as [->|Hne]; cbn [dict_get].
    + rewrite String.eqb_refl. reflexivity.
    + destruct (String.eqb_spec k k0); [congruence|exact IH].
Qed.

Lemma dict_get_setitem_ne (df : DataFrame) (k k' : string) (col : list json) :
  k' <> k -> dict_get k' (setitem df k col) = dict_get k' df.
Proof.
  intros Hne. induction df as [|[k0 c] df IH]; cbn [setitem dict_get].
  - destruct (String.eqb_spec k' k); [congruence|reflexivity].
  - destruct (String.eqb_spec k k0) as [->|Hk]; cbn [dict_get].
    + destruct (String.eqb_spec k' k0); [congruence|reflexivity].
    + rewrite IH. reflexivity.
Qed.

Section NormalizeFacts.
Variable parse_numeric : string -> option (option Q).

(** A converted cell is a number or missing. *)
Lemma to_numeric_cell_numeric (c c' : json) :
  to_numeric_cell parse_numeric c = Ok c' -> numeric_cell c'.
Proof.
  unfold to_numeric_cell, numeric_cell.
  destruct c as [|b|q|[|a s]|[|v l]|[|kv m]]; try (intros [= <-]; eauto; fail).
  destruct (parse_numeric (String a s)) as [[q|]|]; intros [= <-]; eauto.
Qed.

Lemma to_numeric_coerce_numeric (col : list json) :
  Forall numeric_cell (to_numeric_coerce parse_numeric col).
Proof.
  unfold to_numeric_coerce. apply Forall_forall. intros c' Hc'.
  apply list_elem_of_fmap in Hc' as (c & -> & _). unfold coerce_cell.
  destruct (to_numeric_cell parse_numeric c) as [c'|e|] eqn:Hc.
  - eapply to_numeric_cell_numeric, Hc.
  - left; reflexivity.
  - left; reflexivity.
Qed.

(** When every cell converts, the strict conversion returns what the
    lenient one returns. *)
Lemma to_numeric_all_ok (col : list json) :
  Forall (fun c => exists c', to_numeric_cell parse_numeric c = Ok c') col ->
  to_numeric parse_numeric col = Ok (to_numeric_coerce parse_numeric col).
Proof.
  induction 1 as [|c col [c' Hc] Hcol IH]; cbn [to_numeric map]; [reflexivity|].
  unfold to_numeric_coerce, coerce_cell in *. cbn [map]. rewrite Hc, IH. reflexivity.
Qed.

(** One cell that does not convert makes the strict conversion raise. *)
Lemma to_numeric_one_bad (col : list json) (c : json) (e : exn) :
  c ∈ col -> to_numeric_cell parse_numeric c = Raise e -> exists e', to_numeric parse_numeric col = Raise e'.
Proof.
  intros Hin Hbad. induction col as [|c0 col IH]; [apply elem_of_nil in Hin; tauto|].
  cbn [to_numeric].
  destruct (to_numeric_cell parse_numeric c0) as [c0'|e0|] eqn:H0; cbn [rbind].
  - apply elem_of_cons in Hin as [->|Hin]; [congruence|].
    destruct (IH Hin) as [e' ->]. eauto.
  - eauto.
  - exfalso. clear -H0. unfold to_numeric_cell in H0.
    destruct c0 as [|b|q|[|a s]|[|v l]|[|kv m]]; try discriminate.
    destruct (parse_numeric (String a s)) as [[q|]|]; discriminate.
Qed.

Lemma to_numeric_inv (col col' : list json) :
  to_numeric parse_numeric col = Ok col' ->
  col' = to_numeric_coerce parse_numeric col
  /\ Forall (fun c => exists c', to_numeric_cell parse_numeric c = Ok c') col.
Proof.
  revert col'. induction col as [|c col IH]; intros col'; cbn [to_numeric].
  - intros [= <-]. split; [reflexivity|constructor].
  - destruct (to_numeric_cell parse_numeric c) as [c'|e|] eqn:Hc; cbn [rbind]; try discriminate.
    destruct (to_numeric parse_numeric col) as [t'|e|]; cbn [rbind]; try discriminate.
    intros [= <-]. destruct (IH _ eq_refl) as [-> Hall].
    split; [|constructor; eauto].
    unfold to_numeric_coerce, coerce_cell. cbn [map]. rewrite Hc. reflexivity.
Qed.

Lemma normalize_ok (data : list record) :
  has_key "date" data ->
  has_key "value" data ->
  Forall (fun r => exists c', to_numeric_cell parse_numeric (cell_of "date" r) = Ok c') data ->
  normalize parse_numeric data = Ok (normalized parse_numeric data).
Proof.
  intros Hd Hv Hall. unfold normalize, getitem, subscript.
  rewrite (DataFrame_column _ _ Hd). cbn [rbind].
  rewrite to_numeric_all_ok by (rewrite Forall_fmap; exact Hall). cbn [rbind].
  rewrite dict_get_setitem_ne by discriminate.
  rewrite (DataFrame_column _ _ Hv). reflexivity.
Qed.

Lemma normalize_inv (data : list record) (df : DataFrame) :
  normalize parse_numeric data = Ok df ->
  has_key "date" data /\ has_key "value" data
  /\ Forall (fun r => exists c', to_numeric_cell parse_numeric (cell_of "date" r) = Ok c') data
  /\ df = normalized parse_numeric data.
Proof.
  unfold normalize, getitem, subscript. intros H.
  destruct (dict_get "date" (pd_DataFrame data)) as [d|] eqn:Hd; [|discriminate].
  assert (Hkd : has_key "date" data).
  { apply elem_of_all_keys, elem_of_unique. unfold pd_DataFrame in Hd.
    rewrite (dict_get_tabulate (fun k => map (cell_of k) data)) in Hd.
    destruct (bool_decide_reflect
                ("date" ∈ unique (concat (map (map fst) data)))); [assumption|discriminate]. }
  rewrite (DataFrame_column _ _ Hkd) in Hd. injection Hd as <-.
  cbn [rbind] in H.
  destruct (to_numeric parse_numeric (map (cell_of "date") data)) as [d'|e|] eqn:Hn; try discriminate.
  cbn [rbind] in H. apply to_numeric_inv in Hn as [-> Hall].
  rewrite dict_get_setitem_ne in H by discriminate.
  destruct (dict_get "value" (pd_DataFrame data)) as [v|] eqn:Hv; [|discriminate].
  assert (Hkv : has_key "value" data).
  { apply elem_of_all_keys, elem_of_unique. unfold pd_DataFrame in Hv.
    rewrite (dict_get_tabulate (fun k => map (cell_of k) data)) in Hv.
    destruct (bool_decide_reflect
                ("value" ∈ unique (concat (map (map fst) data)))); [assumption|discriminate]. }
  rewrite (DataFrame_column _ _ Hkv) in Hv. injection Hv as <-.
  cbn [rbind] in H. injection H as <-.
  repeat split; try assumption.
  rewrite Forall_fmap in Hall. exact Hall.
Qed.

(** The three columns the script reads from the normalised frame. *)
Lemma normalized_date (data : list record) :
  dict_get "date" (normalized parse_numeric data)
  = Some (to_numeric_coerce parse_numeric (map (cell_of "date") data)).
Proof.
  unfold normalized. rewrite dict_get_setitem_ne by discriminate.
  apply dict_get_setitem_eq.
Qed.

Lemma normalized_value (data : list record) :
  dict_get "value" (normalized parse_numeric data)
  = Some (to_numeric_coerce parse_numeric (map (cell_of "value") data)).
Proof. unfold normalized. apply dict_get_setitem_eq. Qed.

Lemma normalized_other (k : string) (data : list record) :
  k <> "date" -> k <> "value" ->
  dict_get k (normalized parse_numeric data) = dict_get k (pd_DataFrame data).
Proof.
  intros H1 H2. unfold normalized.
  rewrite !dict_get_setitem_ne by assumption. reflexivity.
Qed.
End NormalizeFacts.

(** ** Normalisation (lines 120-122) *)

Lemma non_numeric_raises parse_numeric (c : json) :
  non_numeric parse_numeric c -> exists e, to_numeric_cell parse_numeric c = Raise e.
Proof.
  destruct c as [|b|q|[|a s]|[|v l]|[|kv m]]; cbn [non_numeric to_numeric_cell];
    try tauto; eauto.
  intros ->. eauto.
Qed.

Lemma non_numeric_coerced parse_numeric (c : json) :
  non_numeric parse_numeric c -> coerce_cell parse_numeric c = JNull.
Proof.
  intros H. unfold coerce_cell.
  destruct (non_numeric_raises _ _ H) as [e ->]. reflexivity.
Qed.

Lemma to_numeric_coerce_cells parse_numeric (k : string) (data : list record) :
  to_numeric_coerce parse_numeric (map (cell_of k) data)
  = map (fun r => coerce_cell parse_numeric (cell_of k r)) data.
Proof. unfold to_numeric_coerce. apply map_map. Qed.

Lemma cell_of_present (k : string) (r : record) (c : json) :
  dict_get k r = Some c -> cell_of k r = c.
Proof. unfold cell_of. intros ->. reflexivity. Qed.

Lemma cell_of_absent (k : string) (r : record) :
  dict_get k r = None -> cell_of k r = JNull.
Proof. unfold cell_of. intros ->. reflexivity. Qed.

(** C3 as the specification words it fails: a batch in which the value
    field is absent is not recovered row by row -- no record has the field,
    the frame has no value column, and reading it raises. *)
Lemma absent_value_field_raises :
  parse_decimal "2000" = Some (Some 2000%Q)
  /\ dict_get "value" record_without_value = None
  /\ normalize parse_decimal [record_without_value] = Raise (KeyError "value").
Proof. repeat split. Qed.

(** A cell that is not of that kind converts. *)
Lemma numeric_converts parse_numeric (c : json) :
  ~ non_numeric parse_numeric c -> exists c', to_numeric_cell parse_numeric c = Ok c'.
Proof.
  destruct c as [|b|q|[|a s]|[|v l]|[|kv m]]; cbn [non_numeric to_numeric_cell];
    try tauto; eauto.
  destruct (parse_numeric (String a s)) as [[q|]|]; eauto. intros H. tauto.
Qed.

(** C3, amended: a year field that is not a number -- a non-empty string
    that does not read as one, a non-empty list, a non-empty dict -- makes
    the whole normalisation raise, whatever the other records hold.  In a
    batch in which some record carries a date field, some record a value
    field, and no year is of that kind, normalisation returns: each row's
    year and value are computed from that row alone; a year that is the
    empty string, an empty list or an empty dict is a missing year, not an
    error; and a value field that is absent from the row, null or not a
    number is missing in that row. *)
Theorem year_fatal_value_recovered
    (parse_numeric : string -> option (option Q)) (data : list record) :
  (forall r c,
      r ∈ data -> dict_get "date" r = Some c -> non_numeric parse_numeric c ->
      exists e, normalize parse_numeric data = Raise e)
  /\ (has_key "date" data ->
      has_key "value" data ->
      (forall r c,
          r ∈ data -> dict_get "date" r = Some c -> ~ non_numeric parse_numeric c) ->
      exists df,
        normalize parse_numeric data = Ok df
        /\ getitem df "date"
           = Ok (map (fun r => coerce_cell parse_numeric (cell_of "date" r)) data)
        /\ getitem df "value"
           = Ok (map (fun r => coerce_cell parse_numeric (cell_of "value" r)) data)
        /\ (forall r,
               dict_get "date" r = Some (JStr "")
               \/ dict_get "date" r = Some (JArr [])
               \/ dict_get "date" r = Some (JObj []) ->
               coerce_cell parse_numeric (cell_of "date" r) = JNull)
        /\ (forall r,
               dict_get "value" r = None
               \/ dict_get "value" r = Some JNull
               \/ (exists c, dict_get "value" r = Some c /\ non_numeric parse_numeric c) ->
               coerce_cell parse_numeric (cell_of "value" r) = JNull)
        /\ (forall r q,
               dict_get "value" r = Some (JNum q) ->
               coerce_cell parse_numeric (cell_of "value" r) = JNum q)).
Proof.
  split.
  - intros r c Hr Hc Hbad.
    assert (Hk : has_key "date" data).
    { exists r. split; [exact Hr|congruence]. }
    destruct (non_numeric_raises _ _ Hbad) as [e He].
    destruct (to_numeric_one_bad parse_numeric (map (cell_of "date") data) c e)
      as [e' He']; [|exact He|].
    { apply list_elem_of_fmap. exists r. split; [|exact Hr].
      symmetry. apply cell_of_present, Hc. }
    exists e'. unfold normalize, getitem, subscript.
    rewrite (DataFrame_column _ _ Hk). cbn [rbind]. rewrite He'. reflexivity.
  - intros Hd Hv Hnum. exists (normalized parse_numeric data).
    assert (Hall : Forall (fun r => exists c',
                             to_numeric_cell parse_numeric (cell_of "date" r) = Ok c') data).
    { apply Forall_forall. intros r Hr. unfold cell_of.
      destruct (dict_get "date" r) as [c|] eqn:Hc.
      - apply numeric_converts, (Hnum r c Hr Hc).
      - eexists. reflexivity. }
    split; [apply normalize_ok; assumption|].
    split.
    { unfold getitem, subscript.
      rewrite normalized_date, to_numeric_coerce_cells. reflexivity. }
    split.
    { unfold getitem, subscript.
      rewrite normalized_value, to_numeric_coerce_cells. reflexivity. }
    split; [|split].
    + intros r [H | [H | H]]; rewrite (cell_of_present _ _ _ H); reflexivity.
    + intros r [H | [H | (c & H & Hbad)]].
      * rewrite (cell_of_absent _ _ H). reflexivity.
      * rewrite (cell_of_present _ _ _ H). reflexivity.
      * rewrite (cell_of_present _ _ _ H). apply non_numeric_coerced, Hbad.
    + intros r q H. rewrite (cell_of_present _ _ _ H). reflexivity.
Qed.

Lemma year_fatal_value_recovered_witness :
  (exists e, normalize parse_decimal
               [wb_record "USA" "2000" (JNum 5); wb_record "USA" "2020Q1" (JNum 7)]
             = Raise e)
  /\ (exists df, normalize parse_decimal sample_records = Ok df
                 /\ getitem df "value" = Ok [JNum 5; JNull; JNum 7; JNull])
  /\ (exists df, normalize parse_decimal
                   [wb_record "USA" "2000" (JNum 5); wb_record "USA" "" (JNum 7)] = Ok df
                 /\ getitem df "date" = Ok [JNum 2000; JNull]).
Proof.
  split; [|split].
  - refine (proj1 (year_fatal_value_recovered parse_decimal
              [wb_record "USA" "2000" (JNum 5); wb_record "USA" "2020Q1" (JNum 7)])
              (wb_record "USA" "2020Q1" (JNum 7)) (JStr "2020Q1") _ _ _).
    + apply elem_of_cons; right; apply elem_of_cons; left; reflexivity.
    + reflexivity.
    + reflexivity.
  - destruct (proj2 (year_fatal_value_recovered parse_decimal sample_records))
      as (df & Hdf & _ & Hv & _).
    + exists (wb_record "USA" "2000" (JNum 5)).
      split; [apply elem_of_cons; left; reflexivity|discriminate].
    + exists (wb_record "USA" "2000" (JNum 5)).
      split; [apply elem_of_cons; left; reflexivity|discriminate].
    + intros r c Hr Hc Hbad.
      repeat (apply elem_of_cons in Hr as [-> | Hr]);
        try (injection Hc as <-; discriminate Hbad).
      apply elem_of_nil in Hr. exact Hr.
    + exists df. split; [exact Hdf|exact Hv].
  - destruct (proj2 (year_fatal_value_recovered parse_decimal
                       [wb_record "USA" "2000" (JNum 5); wb_record "USA" "" (JNum 7)]))
      as (df & Hdf & Hd & _).
    + exists (wb_record "USA" "2000" (JNum 5)).
      split; [apply elem_of_cons; left; reflexivity|discriminate].
    + exists (wb_record "USA" "2000" (JNum 5)).
      split; [apply elem_of_cons; left; reflexivity|discriminate].
    + intros r c Hr Hc Hbad.
      repeat (apply elem_of_cons in Hr as [-> | Hr]);
        try (injection Hc as <-; exact Hbad || discriminate Hbad).
      apply elem_of_nil in Hr. exact Hr.
    + exists df. split; [exact Hdf|exact Hd].
Defined.

(** Every column of a frame built from [n] records has [n] cells, and
    assigning a column of [n] cells keeps it so. *)
Lemma DataFrame_rows (data : list record) : rows_are (length data) (pd_DataFrame data).
Proof.
  unfold rows_are, pd_DataFrame. apply Forall_forall. intros kc Hkc.
  apply list_elem_of_fmap in Hkc as (k & -> & _). cbn [snd]. apply length_map.
Qed.

Lemma setitem_rows (n : nat) (df : DataFrame) (k : string) (col : list json) :
  rows_are n df -> length col = n -> rows_are n (setitem df k col).
Proof.
  unfold rows_are. intros Hdf Hcol.
  induction Hdf as [|[k0 c] df Hc Hdf IH]; cbn [setitem].
  - constructor; [exact Hcol|constructor].
  - destruct (String.eqb k k0); constructor; auto.
Qed.

Lemma normalized_rows parse_numeric (data : list record) :
  rows_are (length data) (normalized parse_numeric data).
Proof.
  unfold normalized. apply setitem_rows; [apply setitem_rows|].
  - apply DataFrame_rows.
  - unfold to_numeric_coerce. rewrite !length_map. reflexivity.
  - unfold to_numeric_coerce. rewrite !length_map. reflexivity.
Qed.

Lemma well_formed_has_keys parse_numeric (data : list record) :
  data <> [] ->
  Forall (well_formed_record parse_numeric) data ->
  has_key "countryiso3code" data /\ has_key "date" data /\ has_key "value" data
  /\ Forall (fun r => exists c', to_numeric_cell parse_numeric (cell_of "date" r) = Ok c')
            data.
Proof.
  intros Hne Hwf. destruct data as [|r0 data]; [congruence|].
  pose proof (Forall_inv Hwf) as ((code & Hc) & (s & y & Hd & _ & Hy) & Hv).
  assert (Hin : r0 ∈ r0 :: data) by (apply elem_of_cons; auto).
  repeat split.
  - exists r0. split; [exact Hin|congruence].
  - exists r0. split; [exact Hin|congruence].
  - exists r0. split; [exact Hin|exact Hv].
  - eapply Forall_impl; [exact Hwf|].
    intros r (_ & (s' & y' & Hd' & Hs' & Hy') & _).
    rewrite (cell_of_present _ _ _ Hd').
    destruct s' as [|a s']; [congruence|]. cbn [to_numeric_cell]. rewrite Hy'. eauto.
Qed.

(** C5: for a non-empty list of well-formed records, [normalize] returns a
    frame with one row per record; its value cells are numbers or missing,
    never strings; and the cells of each column are those of the records,
    taken in list order, one for one -- nothing is sorted and nothing is
    dropped, so two records with the same country and year give two
    rows. *)
Theorem normalize_rows
    (parse_numeric : string -> option (option Q)) (data : list record) :
  data <> [] ->
  Forall (well_formed_record parse_numeric) data ->
  exists df,
    normalize parse_numeric data = Ok df
    /\ rows_are (length data) df
    /\ getitem df "countryiso3code" = Ok (map (cell_of "countryiso3code") data)
    /\ getitem df "date"
       = Ok (map (fun r => coerce_cell parse_numeric (cell_of "date" r)) data)
    /\ getitem df "value"
       = Ok (map (fun r => coerce_cell parse_numeric (cell_of "value" r)) data)
    /\ Forall numeric_cell
              (map (fun r => coerce_cell parse_numeric (cell_of "value" r)) data)
    /\ Forall (fun c => exists y, c = JNum y)
              (map (fun r => coerce_cell parse_numeric (cell_of "date" r)) data)
    /\ forall (i : nat) (r : record),
         data !! i = Some r ->
         map (cell_of "countryiso3code") data !! i = Some (cell_of "countryiso3code" r)
         /\ map (fun r => coerce_cell parse_numeric (cell_of "date" r)) data !! i
            = Some (coerce_cell parse_numeric (cell_of "date" r))
         /\ map (fun r => coerce_cell parse_numeric (cell_of "value" r)) data !! i
            = Some (coerce_cell parse_numeric (cell_of "value" r)).
Proof.
  intros Hne Hwf.
  destruct (well_formed_has_keys _ _ Hne Hwf) as (Hkc & Hkd & Hkv & Hall).
  exists (normalized parse_numeric data).
  split; [apply normalize_ok; assumption|].
  split; [apply normalized_rows|].
  unfold getitem, subscript.
  split.
  { rewrite normalized_other by discriminate.
    rewrite (DataFrame_column _ _ Hkc). reflexivity. }
  split.
  { rewrite normalized_date, to_numeric_coerce_cells. reflexivity. }
  split.
  { rewrite normalized_value, to_numeric_coerce_cells. reflexivity. }
  split.
  { rewrite <- to_numeric_coerce_cells. apply to_numeric_coerce_numeric. }
  split.
  { apply Forall_fmap. eapply Forall_impl; [exact Hwf|].
    intros r (_ & (s & y & Hd & Hs & Hy) & _). cbn.
    rewrite (cell_of_present _ _ _ Hd). unfold coerce_cell.
    destruct s as [|a s]; [congruence|]. cbn [to_numeric_cell]. rewrite Hy. eauto. }
  intros i r Hi.
  change (@map record json) with (@fmap list _ record json).
  rewrite !list_lookup_fmap, Hi. repeat split.
Qed.

Lemma normalize_rows_witness :
  exists df,
    normalize parse_decimal
      (sample_records ++ [wb_record "USA" "2000" (JNum 5)]) = Ok df
    /\ getitem df "value" = Ok [JNum 5; JNull; JNum 7; JNull; JNum 5]
    /\ getitem df "date" = Ok [JNum 2000; JNum 2000; JNum 2001; JNum 2001; JNum 2000].
Proof.
  destruct (normalize_rows parse_decimal
              (sample_records ++ [wb_record "USA" "2000" (JNum 5)]))
    as (df & Hdf & _ & _ & Hd & Hv & _).
  - discriminate.
  - repeat constructor; cbn; eauto; discriminate.
  - exists df. split; [exact Hdf|]. split; [exact Hv|exact Hd].
Defined.

(** ** The trend of one country (lines 136-148) *)

Lemma cell_is_true (country : string) (c : json) :
  cell_is country c = true <-> c = JStr country.
Proof.
  destruct c as [|b|q|s|l|m]; cbn [cell_is]; try (split; discriminate).
  rewrite String.eqb_eq. split; congruence.
Qed.

Lemma select_none {A : Type} (country : string) (c : list json) (l : list A) :
  (forall cell, cell ∈ c -> cell <> JStr country) ->
  select (map (cell_is country) c) l = [].
Proof.
  revert l. induction c as [|c0 c IH]; intros l H; cbn [map select]; [reflexivity|].
  destruct l as [|x l]; [reflexivity|].
  destruct (cell_is country c0) eqn:Hc0.
  - apply cell_is_true in Hc0. exfalso. apply (H c0); [apply elem_of_cons; auto|exact Hc0].
  - apply IH. intros cell Hin. apply H, elem_of_cons; auto.
Qed.

(** C7: when no row of the frame carries the country, nothing is fitted:
    the estimator returns no trend line, no trace is built, and the loop
    passes the figure on unchanged. *)
Theorem no_rows_no_trend (df : DataFrame) (country : string) (c : list json) :
  getitem df "countryiso3code" = Ok c ->
  (forall cell, cell ∈ c -> cell <> JStr country) ->
  estimate df country = Ok None
  /\ trend_trace df country = Ok None
  /\ forall rest fig, add_trends df (country :: rest) fig = add_trends df rest fig.
Proof.
  intros Hc Hnone.
  assert (He : estimate df country = Ok None).
  { unfold estimate. rewrite Hc. cbn [rbind].
    rewrite (select_none country c c Hnone). reflexivity. }
  assert (Ht : trend_trace df country = Ok None).
  { unfold trend_trace. rewrite He. reflexivity. }
  repeat split; try assumption.
  intros rest fig. cbn [add_trends]. rewrite Ht. reflexivity.
Qed.

Lemma no_rows_no_trend_witness :
  estimate (normalized parse_decimal sample_records) "FRA" = Ok None
  /\ trend_trace (normalized parse_decimal sample_records) "FRA" = Ok None.
Proof.
  destruct (no_rows_no_trend (normalized parse_decimal sample_records) "FRA"
              [JStr "USA"; JStr "CHN"; JStr "USA"; JStr "CHN"]) as (He & Ht & _).
  - reflexivity.
  - intros cell Hin.
    repeat (apply elem_of_cons in Hin as [->|Hin]; [discriminate|]).
    apply elem_of_nil in Hin. destruct Hin.
  - split; assumption.
Defined.

(** ** The fit

    Two checks of [polyfit1] against what [lstsq] computes.  When the
    abscissae are not all equal the coefficients solve the normal
    equations.  When they are all equal the coefficients reproduce the mean
    of the ordinates and have the direction of the minimum-norm solution in
    the scaled unknowns, [slope * Sx = intercept * n]. *)

Lemma lstsq_line_regular (s : fit_sums) (a b : Q) :
  ~ (spread s == 0)%Q ->
  lstsq_line s = Ok (a, b) ->
  (a * s_xx s + b * s_x s == s_xy s)%Q /\ (a * s_x s + b * s_n s == s_y s)%Q.
Proof.
  intros Hsp. unfold lstsq_line.
  destruct (Qeq_bool (spread s) 0) eqn:Hd.
  { apply Qeq_bool_iff in Hd. contradiction. }
  cbn [negb]. intros [= <- <-].
  rewrite !Qred_correct. unfold spread in *. split; field; exact Hsp.
Qed.

Lemma lstsq_line_degenerate (s : fit_sums) :
  (spread s == 0)%Q ->
  ~ (s_x s == 0)%Q ->
  lstsq_line s = Ok (Qred (s_y s / (2 * s_x s)), Qred (s_y s / (2 * s_n s)))%Q.
Proof.
  intros Hsp Hsx. unfold lstsq_line.
  apply Qeq_bool_iff in Hsp. rewrite Hsp. cbn [negb].
  destruct (Qeq_bool (s_x s) 0) eqn:Hz.
  { apply Qeq_bool_iff in Hz. contradiction. }
  reflexivity.
Qed.

Lemma lstsq_line_degenerate_direction (s : fit_sums) (a b : Q) :
  (spread s == 0)%Q ->
  ~ (s_n s == 0)%Q ->
  lstsq_line s = Ok (a, b) ->
  (a * s_x s == b * s_n s)%Q /\ (a * s_x s + b * s_n s == s_y s)%Q.
Proof.
  intros Hsp Hn. unfold lstsq_line.
  apply Qeq_bool_iff in Hsp. rewrite Hsp. cbn [negb].
  destruct (Qeq_bool (s_x s) 0) eqn:Hz; [discriminate|].
  apply Qeq_bool_neq in Hz.
  intros [= <- <-]. rewrite !Qred_correct. split; field; auto.
Qed.

Lemma polyfit1_sums (xs ys : list Q) :
  xs <> [] -> length xs = length ys -> polyfit1 xs ys = lstsq_line (sums xs ys).
Proof.
  intros Hne Hlen. unfold polyfit1. destruct xs as [|x xs]; [congruence|].
  rewrite Hlen, Nat.eqb_refl. reflexivity.
Qed.

(** The spread is a sum of squared differences, so it vanishes exactly
    when all abscissae are equal: the first case of [lstsq_line] is the
    full-rank one. *)
Lemma Qsquare_nonneg (a : Q) : (0 <= a * a)%Q.
Proof.
  unfold Qle, Qmult. cbn [Qnum Qden]. rewrite Z.mul_1_r. cbn. apply Z.square_nonneg.
Qed.

Lemma Qsum_nonneg (l : list Q) : Forall (fun q => 0 <= q)%Q l -> (0 <= Qsum l)%Q.
Proof.
  induction 1 as [|q l Hq Hl IH]; cbn [Qsum fold_right]; [apply Qle_refl|].
  change (0 <= q + Qsum l)%Q. rewrite <- (Qplus_0_l 0). apply Qplus_le_compat; assumption.
Qed.

Lemma Qsum_zero (l : list Q) :
  Forall (fun q => 0 <= q)%Q l -> (Qsum l == 0)%Q -> Forall (fun q => q == 0)%Q l.
Proof.
  induction 1 as [|q l Hq Hl IH]; [constructor|].
  change (q + Qsum l == 0 -> Forall (fun q => q == 0) (q :: l))%Q. intros H.
  pose proof (Qsum_nonneg l Hl) as Hs.
  assert (Hq0 : (q == 0)%Q).
  { apply Qle_antisym; [|exact Hq].
    rewrite <- H. rewrite <- (Qplus_0_r q) at 1. apply Qplus_le_compat; [apply Qle_refl|exact Hs]. }
  constructor; [exact Hq0|]. apply IH. rewrite Hq0, Qplus_0_l in H. exact H.
Qed.

Lemma count_succ (n : nat) :
  (inject_Z (Z.of_nat (S n)) == inject_Z (Z.of_nat n) + 1)%Q.
Proof. rewrite Nat2Z.inj_succ. unfold Z.succ. rewrite inject_Z_plus. reflexivity. Qed.

Lemma squared_differences (x : Q) (l : list Q) :
  (Qsum (map (fun z => (x - z) * (x - z)) l)
   == inject_Z (Z.of_nat (length l)) * (x * x) - 2 * x * Qsum l
      + Qsum (map (fun z => z * z) l))%Q.
Proof.
  induction l as [|z l IH].
  - cbn. ring.
  - cbn [map Qsum fold_right length]. fold (Qsum (map (fun z => (x - z) * (x - z))%Q l)).
    fold (Qsum l). fold (Qsum (map (fun z => z * z)%Q l)).
    rewrite IH, count_succ. ring.
Qed.

Lemma spread_cons (x : Q) (l ys ys' : list Q) :
  (spread (sums (x :: l) ys)
   == spread (sums l ys') + Qsum (map (fun z => (x - z) * (x - z)) l))%Q.
Proof.
  unfold spread. cbn [sums s_n s_x s_xx length map Qsum fold_right].
  fold (Qsum l). fold (Qsum (map (fun z => z * z)%Q l)).
  rewrite squared_differences, count_succ. ring.
Qed.

Lemma spread_nonneg (l ys : list Q) : (0 <= spread (sums l ys))%Q.
Proof.
  induction l as [|x l IH].
  - unfold spread. cbn. apply Qle_refl.
  - rewrite (spread_cons x l ys ys). rewrite <- (Qplus_0_l 0).
    apply Qplus_le_compat; [exact IH|].
    apply Qsum_nonneg, Forall_forall. intros q Hq.
    apply list_elem_of_fmap in Hq as (z & -> & _). apply Qsquare_nonneg.
Qed.

Lemma spread_zero_iff (l ys : list Q) :
  (spread (sums l ys) == 0)%Q <-> (forall a b, a ∈ l -> b ∈ l -> (a == b)%Q).
Proof.
  induction l as [|x l IH].
  - split; [intros _ a b Ha; apply elem_of_nil in Ha; tauto|].
    intros _. unfold spread. cbn. ring.
  - rewrite (spread_cons x l ys ys).
    assert (Hsq : Forall (fun q => 0 <= q)%Q (map (fun z => (x - z) * (x - z))%Q l)).
    { apply Forall_forall. intros q Hq.
      apply list_elem_of_fmap in Hq as (z & -> & _). apply Qsquare_nonneg. }
    pose proof (spread_nonneg l ys) as Hsp.
    pose proof (Qsum_nonneg _ Hsq) as Hsum.
    split.
    + intros H.
      assert (H1 : (spread (sums l ys) == 0)%Q).
      { apply Qle_antisym; [|exact Hsp]. rewrite <- H.
        rewrite <- (Qplus_0_r (spread (sums l ys))) at 1.
        apply Qplus_le_compat; [apply Qle_refl|exact Hsum]. }
      assert (H2 : (Qsum (map (fun z => (x - z) * (x - z)) l) == 0)%Q).
      { rewrite H1, Qplus_0_l in H. exact H. }
      assert (Hx : forall z, z ∈ l -> (z == x)%Q).
      { intros z Hz. pose proof (Qsum_zero _ Hsq H2) as Hall.
        rewrite Forall_forall in Hall.
        specialize (Hall ((x - z) * (x - z))%Q).
        assert (Hin : ((x - z) * (x - z))%Q ∈ map (fun z => (x - z) * (x - z))%Q l).
        { apply list_elem_of_fmap. exists z. split; [reflexivity|exact Hz]. }
        specialize (Hall Hin). apply Qmult_integral in Hall.
        assert (Hd : (x - z == 0)%Q) by tauto.
        transitivity (x - (x - z))%Q; [ring|rewrite Hd; ring]. }
      intros a b Ha Hb. apply elem_of_cons in Ha, Hb.
      destruct Ha as [->|Ha], Hb as [->|Hb].
      * reflexivity.
      * symmetry. apply Hx, Hb.
      * apply Hx, Ha.
      * rewrite (Hx a Ha), (Hx b Hb). reflexivity.
    + intros H.
      assert (H1 : (spread (sums l ys) == 0)%Q).
      { apply IH. intros a b Ha Hb. apply H; apply elem_of_cons; auto. }
      rewrite H1, Qplus_0_l.
      assert (Hz : Forall (fun q => q == 0)%Q (map (fun z => (x - z) * (x - z))%Q l)).
      { apply Forall_forall. intros q Hq.
        apply list_elem_of_fmap in Hq as (z & -> & Hz).
        assert (Hxz : (x == z)%Q) by (apply H; apply elem_of_cons; auto).
        rewrite Hxz. ring. }
      clear -Hz. induction Hz as [|q l' Hq Hl IH']; [reflexivity|].
      change (q + Qsum l' == 0)%Q. rewrite Hq, IH'. ring.
Qed.

(** The fit through a single point [(y, v)] with [y <> 0]. *)
Lemma polyfit1_single (y v : Q) :
  ~ (y == 0)%Q ->
  exists a b,
    polyfit1 [y] [v] = Ok (a, b)
    /\ (a == v / (2 * y))%Q /\ (b == v / 2)%Q /\ (poly1d (a, b) y == v)%Q.
Proof.
  intros Hy.
  assert (Hsp : (spread (sums [y] [v]) == 0)%Q).
  { unfold spread. cbn. ring. }
  assert (Hsx : ~ (s_x (sums [y] [v]) == 0)%Q).
  { cbn. intros H. apply Hy. rewrite <- H. ring. }
  pose proof (lstsq_line_degenerate _ Hsp Hsx) as H.
  rewrite <- polyfit1_sums in H by (discriminate || reflexivity).
  eexists _, _. split; [exact H|].
  unfold poly1d. cbn [fst snd sums s_x s_y s_n Qsum fold_right length].
  rewrite !Qred_correct. repeat split; field; exact Hy.
Qed.

(** C2 as the specification words it fails: the line fitted to the single
    row (2000, 5) is not horizontal; its slope is 1/800. *)
Lemma single_row_trend_is_not_horizontal :
  exists tl,
    estimate (normalized parse_decimal [wb_record "USA" "2000" (JNum 5)]) "USA"
    = Ok (Some tl)
    /\ slope tl = (1 # 800)%Q
    /\ ~ (slope tl == 0)%Q.
Proof.
  eexists. split; [vm_compute; reflexivity|].
  split; [reflexivity|]. cbn [slope]. discriminate.
Qed.

(** C2, amended: when the rows of the frame that carry the country are
    exactly one row, of year [y <> 0] and value cell [val] (a number or
    missing), the estimator does not raise: it returns a trend line with
    exactly one predicted point, at year [y], whose predicted value is the
    row's value with missing read as 0.  The fitted line is the
    minimum-norm one, of slope [v / (2 y)] and intercept [v / 2]; it is
    horizontal only when the value is 0. *)
Theorem single_row_trend
    (df : DataFrame) (country : string) (c d v : list json) (y : Q) (val : json) :
  getitem df "countryiso3code" = Ok c ->
  getitem df "date" = Ok d ->
  getitem df "value" = Ok v ->
  select (map (cell_is country) c) c = [JStr country] ->
  select (map (cell_is country) c) d = [JNum y] ->
  select (map (cell_is country) c) v = [val] ->
  numeric_cell val ->
  ~ (y == 0)%Q ->
  let v0 := match val with JNum q => q | _ => 0%Q end in
  exists tl,
    estimate df country = Ok (Some tl)
    /\ points_x tl = [JNum y]
    /\ (exists p, points_y tl = [JNum p] /\ (p == v0)%Q)
    /\ (slope tl == v0 / (2 * y))%Q
    /\ (intercept tl == v0 / 2)%Q
    /\ ((slope tl == 0)%Q <-> (v0 == 0)%Q).
Proof.
  intros Hc Hd Hv Hsc Hsd Hsv Hval Hy v0.
  destruct (polyfit1_single y v0 Hy) as (a & b & Hfit & Ha & Hb & Hp).
  assert (Hnp : np_polyfit [JNum y] (map fillna0 [val]) = Ok (a, b)).
  { unfold np_polyfit. cbn [floats option_map map].
    destruct Hval as [->|[q ->]]; cbn [fillna0 floats option_map]; exact Hfit. }
  exists {| slope := a; intercept := b;
            points_x := [JNum y]; points_y := poly1d_col (a, b) [JNum y] |}.
  split.
  { unfold estimate. rewrite Hc. cbn [rbind]. rewrite Hsc, Hd, Hv. cbn [rbind].
    rewrite Hsd, Hsv, Hnp. reflexivity. }
  cbn [slope intercept points_x points_y poly1d_col map].
  split; [reflexivity|].
  split; [eexists; split; [reflexivity|exact Hp]|].
  split; [exact Ha|]. split; [exact Hb|].
  rewrite Ha. split; intros H.
  - assert (Hv0 : (v0 == v0 / (2 * y) * (2 * y))%Q) by (field; exact Hy).
    rewrite Hv0, H. ring.
  - rewrite H. field. exact Hy.
Qed.

Lemma single_row_trend_witness :
  exists tl,
    estimate (normalized parse_decimal [wb_record "USA" "2000" (JNum 5)]) "USA"
    = Ok (Some tl)
    /\ points_x tl = [JNum 2000%Q]
    /\ (exists p, points_y tl = [JNum p] /\ (p == 5)%Q).
Proof.
  destruct (single_row_trend
              (normalized parse_decimal [wb_record "USA" "2000" (JNum 5)]) "USA"
              [JStr "USA"] [JNum 2000%Q] [JNum 5%Q] 2000%Q (JNum 5%Q))
    as (tl & He & Hx & Hy & _); try reflexivity.
  - right. eexists; reflexivity.
  - discriminate.
  - exists tl. split; [exact He|]. split; [exact Hx|exact Hy].
Defined.

(** ** The chart (lines 119-157) *)

Lemma as_records_inv (l : list json) (recs : list record) :
  as_records l = Ok recs -> l = map JObj recs.
Proof.
  revert recs. induction l as [|v l IH]; intros recs; cbn [as_records].
  - intros [= <-]. reflexivity.
  - destruct v as [|b|q|s|l0|m]; try discriminate.
    destruct (as_records l) as [rs|e|]; cbn [rbind]; try discriminate.
    intros [= <-]. cbn [map]. f_equal. apply IH. reflexivity.
Qed.


Lemma as_records_objects (recs : list record) : as_records (map JObj recs) = Ok recs.
Proof.
  induction recs as [|r recs IH]; cbn [map as_records]; [reflexivity|].
  rewrite IH. reflexivity.
Qed.

Lemma px_line_inv (df : DataFrame) (label ttl : string) (fig : figure) :
  px_line df label ttl = Ok fig ->
  exists x y c codes,
    dict_get "date" df = Some x
    /\ dict_get "value" df = Some y
    /\ dict_get "countryiso3code" df = Some c
    /\ strings c = Ok codes
    /\ fig = {| title := ttl; legend_title := "Country"; value_label := label;
                height := None; data := map (raw_trace x y c) (unique codes) |}.
Proof.
  unfold px_line, px_column.
  destruct (dict_get "date" df) as [x|]; [|discriminate].
  destruct (dict_get "value" df) as [y|]; [|discriminate].
  destruct (dict_get "countryiso3code" df) as [c|]; [|discriminate].
  cbn [rbind]. destruct (strings c) as [codes|e|] eqn:Hs; cbn [rbind]; try discriminate.
  intros [= <-]. exists x, y, c, codes. repeat split. exact Hs.
Qed.

(** What the loop adds: the trend traces of the selected countries that
    have one, in selection order. *)
Lemma add_trends_data (df : DataFrame) (sel : list string) (fig fig' : figure) :
  add_trends df sel fig = Ok fig' ->
  data fig' = data fig ++ omap (trend_of df) sel
  /\ title fig' = title fig
  /\ legend_title fig' = legend_title fig
  /\ value_label fig' = value_label fig
  /\ height fig' = height fig
  /\ Forall (fun k => exists o, trend_trace df k = Ok o) sel.
Proof.
  revert fig. induction sel as [|k sel IH]; intros fig; cbn [add_trends].
  - intros [= <-]. cbn [omap list_omap]. rewrite app_nil_r. repeat split. constructor.
  - intros H.
    assert (Hcons : omap (trend_of df) (k :: sel)
                    = match trend_of df k with
                      | Some t => t :: omap (trend_of df) sel
                      | None => omap (trend_of df) sel
                      end) by reflexivity.
    rewrite Hcons. unfold trend_of at 1.
    destruct (trend_trace df k) as [[t|]|e|] eqn:Hk; cbn [rbind] in H; try discriminate.
    + apply IH in H as (Hd & Ht & Hl & Hv & Hh & Hall).
      cbn [add_trace data title legend_title value_label height] in *.
      rewrite Hd, <- app_assoc. repeat split; try assumption.
      constructor; eauto.
    + apply IH in H as (Hd & Ht & Hl & Hv & Hh & Hall).
      repeat split; try assumption. constructor; eauto.
Qed.

Lemma DataFrame_column_inv (k : string) (data : list record) (c : list json) :
  dict_get k (pd_DataFrame data) = Some c ->
  has_key k data /\ c = map (cell_of k) data.
Proof.
  intros H. unfold pd_DataFrame in H.
  rewrite (dict_get_tabulate (fun k => map (cell_of k) data)) in H.
  destruct (bool_decide_reflect (k ∈ unique (concat (map (map fst) data))))
    as [Hin|Hnin]; [|discriminate].
  injection H as <-. split; [|reflexivity].
  apply elem_of_all_keys, elem_of_unique, Hin.
Qed.

Lemma trend_trace_inv (df : DataFrame) (k : string) (t : trace) :
  trend_trace df k = Ok (Some t) ->
  exists tl label,
    estimate df k = Ok (Some tl)
    /\ dict_get k countries = Some label
    /\ t = {| name := label +:+ " trend";
              xs := points_x tl;
              ys := points_y tl;
              line_dash := Some "dash";
              opacity := Some (1 # 2)%Q |}.
Proof.
  unfold trend_trace.
  destruct (estimate df k) as [[tl|]|e|]; cbn [rbind]; try discriminate.
  unfold subscript. destruct (dict_get k countries) as [label|]; cbn [rbind]; try discriminate.
  intros [= <-]. exists tl, label. repeat split.
Qed.

Lemma trend_of_inv (df : DataFrame) (k : string) (t : trace) :
  trend_of df k = Some t <-> trend_trace df k = Ok (Some t).
Proof.
  unfold trend_of. destruct (trend_trace df k) as [[t'|]|e|]; split; congruence.
Qed.

Lemma trend_of_dashed (df : DataFrame) (sel : list string) :
  Forall (fun t => is_trend t = true) (omap (trend_of df) sel).
Proof.
  apply Forall_forall. intros t Ht.
  apply list_elem_of_omap in Ht as (k & _ & Hk).
  apply trend_of_inv, trend_trace_inv in Hk as (tl & label & _ & _ & ->).
  reflexivity.
Qed.

Lemma raw_trace_solid (x y c : list json) (ks : list string) :
  Forall (fun t => is_trend t = false) (map (raw_trace x y c) ks).
Proof.
  apply Forall_forall. intros t Ht.
  apply list_elem_of_fmap in Ht as (k & -> & _). reflexivity.
Qed.

Lemma filter_all_true {A : Type} (p : A -> bool) (l : list A) :
  Forall (fun x => p x = true) l -> List.filter p l = l.
Proof.
  induction 1 as [|x l Hx Hl IH]; cbn [List.filter]; [reflexivity|].
  rewrite Hx, IH. reflexivity.
Qed.

Lemma filter_all_false {A : Type} (p : A -> bool) (l : list A) :
  Forall (fun x => p x = false) l -> List.filter p l = [].
Proof.
  induction 1 as [|x l Hx Hl IH]; cbn [List.filter]; [reflexivity|].
  rewrite Hx, IH. reflexivity.
Qed.

(** A figure made of solid traces followed by dashed ones splits into its
    raw and its trend series. *)
Lemma series_split (fig : figure) (raw trends : list trace) :
  data fig = raw ++ trends ->
  Forall (fun t => is_trend t = false) raw ->
  Forall (fun t => is_trend t = true) trends ->
  raw_series fig = raw /\ trend_series fig = trends.
Proof.
  intros Hd Hraw Htr. unfold raw_series, trend_series. rewrite Hd, !List.filter_app. split.
  - rewrite (filter_all_true _ raw), (filter_all_false _ trends), app_nil_r; [reflexivity| |].
    + eapply Forall_impl; [exact Htr|]. cbn. intros t ->. reflexivity.
    + eapply Forall_impl; [exact Hraw|]. cbn. intros t ->. reflexivity.
  - rewrite (filter_all_false _ raw), (filter_all_true _ trends); auto.
Qed.

Section ChartFacts.
Variable parse_numeric : string -> option (option Q).

(** What a chart that is drawn consists of. *)
Lemma chart_inv (d : json) (indicator : string) (sel : list string)
      (show_trend : bool) (fig : figure) :
  chart parse_numeric d indicator sel show_trend = Ok fig ->
  exists recs label codes,
    let df := normalized parse_numeric recs in
    let x := to_numeric_coerce parse_numeric (map (cell_of "date") recs) in
    let y := to_numeric_coerce parse_numeric (map (cell_of "value") recs) in
    let c := map (cell_of "countryiso3code") recs in
    d = JArr (map JObj recs)
    /\ normalize parse_numeric recs = Ok df
    /\ dict_get indicator wb_indicators = Some label
    /\ getitem df "date" = Ok x
    /\ getitem df "value" = Ok y
    /\ getitem df "countryiso3code" = Ok c
    /\ strings c = Ok codes
    /\ raw_series fig = map (raw_trace x y c) (unique codes)
    /\ trend_series fig = (if show_trend then omap (trend_of df) sel else [])
    /\ data fig = raw_series fig ++ trend_series fig
    /\ (show_trend = true -> Forall (fun k => exists o, trend_trace df k = Ok o) sel).
Proof.
  unfold chart. intros H.
  destruct d as [| | | |l|]; cbn [rbind] in H; try discriminate.
  destruct (as_records l) as [recs|e|] eqn:Hl; cbn [rbind] in H; try discriminate.
  apply as_records_inv in Hl. subst l.
  destruct (normalize parse_numeric recs) as [df|e|] eqn:Hn; cbn [rbind] in H;
    try discriminate.
  pose proof (normalize_inv _ _ _ Hn) as (Hkd & Hkv & Hall & ->).
  unfold subscript in H at 1.
  destruct (dict_get indicator wb_indicators) as [label|] eqn:Hlab; cbn [rbind] in H;
    try discriminate.
  destruct (px_line (normalized parse_numeric recs) label (label +:+ " Over Time"))
    as [fig0|e|] eqn:Hpx; cbn [rbind] in H; try discriminate.
  apply px_line_inv in Hpx as (x & y & c & codes & Hx & Hy & Hc & Hs & ->).
  rewrite normalized_date in Hx. injection Hx as <-.
  rewrite normalized_value in Hy. injection Hy as <-.
  rewrite normalized_other in Hc by discriminate.
  apply DataFrame_column_inv in Hc as [Hkc ->].
  exists recs, label, codes. cbv zeta.
  split; [reflexivity|]. split; [exact Hn|]. split; [reflexivity|].
  unfold getitem, subscript.
  split; [rewrite normalized_date; reflexivity|].
  split; [rewrite normalized_value; reflexivity|].
  split; [rewrite normalized_other by discriminate;
          rewrite (DataFrame_column _ _ Hkc); reflexivity|].
  split; [exact Hs|].
  set (raw := map _ (unique codes)) in *.
  assert (Hdata : data fig = raw ++ (if show_trend
                                     then omap (trend_of (normalized parse_numeric recs)) sel
                                     else [])
                  /\ (show_trend = true ->
                      Forall (fun k => exists o,
                                  trend_trace (normalized parse_numeric recs) k = Ok o) sel)).
  { destruct show_trend.
    - match type of H with
      | rbind ?r _ = _ => destruct r as [fig1|e|] eqn:Hadd; cbn [rbind] in H;
                            try discriminate
      end.
      injection H as <-. apply add_trends_data in Hadd as (Hd & _ & _ & _ & _ & Hall').
      cbn [update_layout data] in *. split; [exact Hd|intros _; exact Hall'].
    - cbn [rbind] in H. injection H as <-. cbn [update_layout data].
      rewrite app_nil_r. split; [reflexivity|discriminate]. }
  destruct Hdata as [Hdata Hall'].
  destruct (series_split fig raw _ Hdata) as [Hr Ht].
  { apply raw_trace_solid. }
  { destruct show_trend; [apply trend_of_dashed|constructor]. }
  rewrite Hr, Ht. repeat split; assumption.
Qed.
End ChartFacts.

Lemma strings_inv (c : list json) (codes : list string) :
  strings c = Ok codes -> c = map JStr codes.
Proof.
  revert codes. induction c as [|v c IH]; intros codes; cbn [strings].
  - intros [= <-]. reflexivity.
  - destruct v as [|b|q|s|l|m]; try discriminate.
    destruct (strings c) as [ss|e|]; cbn [rbind]; try discriminate.
    intros [= <-]. cbn [map]. f_equal. apply IH. reflexivity.
Qed.

Lemma raw_trace_names (x y c : list json) (ks : list string) :
  map name (map (raw_trace x y c) ks) = ks.
Proof. rewrite map_map. cbn [raw_trace name]. apply map_id. Qed.

(** A selected country whose trace is built is a country with a trend
    line, and when no selected country makes the loop raise the converse
    holds too. *)
Lemma has_trend_trend_of (df : DataFrame) (k : string) :
  (exists o, trend_trace df k = Ok o) ->
  has_trend df k = match trend_of df k with Some _ => true | None => false end.
Proof.
  intros [o Ho]. unfold has_trend, trend_of. rewrite Ho.
  unfold trend_trace in Ho.
  destruct (estimate df k) as [[tl|]|e|]; cbn [rbind] in Ho; try discriminate.
  - destruct (subscript countries k); cbn [rbind] in Ho; try discriminate.
    injection Ho as <-. reflexivity.
  - injection Ho as <-. reflexivity.
Qed.

Lemma trends_of_selection (df : DataFrame) (sel : list string) :
  Forall (fun k => exists o, trend_trace df k = Ok o) sel ->
  Forall2 (fun k t => trend_trace df k = Ok (Some t))
          (List.filter (has_trend df) sel) (omap (trend_of df) sel).
Proof.
  induction 1 as [|k sel Hk Hsel IH]; [constructor|].
  cbn [List.filter]. rewrite (has_trend_trend_of df k Hk).
  change (omap (trend_of df) (k :: sel))
    with (match trend_of df k with
          | Some t => t :: omap (trend_of df) sel
          | None => omap (trend_of df) sel
          end).
  destruct (trend_of df k) as [t|] eqn:Ht; [|exact IH].
  constructor; [apply trend_of_inv, Ht|exact IH].
Qed.

(** C6: a chart that is drawn consists of one raw series per distinct
    country code of the normalised table, followed, when trends are shown,
    by one trend series per selected country that has a trend line, and by
    nothing else. *)
Theorem chart_series_count
    (parse_numeric : string -> option (option Q)) (d : json) (indicator : string)
    (selected_countries : list string) (show_trend : bool) (fig : figure) :
  NoDup selected_countries ->
  chart parse_numeric d indicator selected_countries show_trend = Ok fig ->
  exists recs codes,
    let df := normalized parse_numeric recs in
    let with_trend := List.filter (has_trend df) selected_countries in
    d = JArr (map JObj recs)
    /\ normalize parse_numeric recs = Ok df
    /\ getitem df "countryiso3code" = Ok (map JStr codes)
    /\ data fig = raw_series fig ++ trend_series fig
    /\ map name (raw_series fig) = unique codes
    /\ NoDup (unique codes)
    /\ (forall k, k ∈ unique codes <-> k ∈ codes)
    /\ length (raw_series fig) = length (unique codes)
    /\ (show_trend = false -> trend_series fig = [])
    /\ (show_trend = true ->
        Forall2 (fun k t => trend_trace df k = Ok (Some t)) with_trend (trend_series fig)
        /\ NoDup with_trend
        /\ length (trend_series fig) = length with_trend).
Proof.
  intros Hnd H.
  apply chart_inv in H
    as (recs & label & codes & Hd & Hn & _ & _ & _ & Hc & Hs & Hraw & Htr & Hdata & Hall).
  exists recs, codes. cbv zeta.
  split; [exact Hd|]. split; [exact Hn|].
  split; [rewrite Hc; f_equal; apply strings_inv, Hs|].
  split; [exact Hdata|].
  split; [rewrite Hraw; apply raw_trace_names|].
  split; [apply NoDup_unique|].
  split; [intros k; apply elem_of_unique|].
  split; [rewrite Hraw, length_map; reflexivity|].
  split.
  - intros ->. exact Htr.
  - intros ->. specialize (Hall eq_refl).
    pose proof (trends_of_selection _ _ Hall) as HF. rewrite <- Htr in HF.
    split; [exact HF|]. split; [apply NoDup_filter_bool, Hnd|].
    symmetry. eapply Forall2_length, HF.
Qed.

Lemma chart_series_count_witness :
  exists fig,
    chart parse_decimal (JArr (map JObj sample_records)) "NY.GDP.MKTP.CD"
          ["USA"; "FRA"] true = Ok fig
    /\ data fig = raw_series fig ++ trend_series fig
    /\ NoDup (map name (raw_series fig))
    /\ map name (raw_series fig) = ["USA"; "CHN"]
    /\ map name (trend_series fig) = ["United States trend"].
Proof.
  eexists. split; [vm_compute; reflexivity|].
  match goal with
  | |- data ?f = _ /\ _ =>
      destruct (chart_series_count parse_decimal (JArr (map JObj sample_records))
                  "NY.GDP.MKTP.CD" ["USA"; "FRA"] true f)
        as (recs & codes & _ & _ & _ & Hdata & Hnames & Hnd & _)
  end.
  - repeat constructor; rewrite ?elem_of_cons, ?elem_of_nil; intros H;
      repeat destruct H as [H|H]; try discriminate H; exact H.
  - vm_compute; reflexivity.
  - split; [exact Hdata|]. split; [rewrite Hnames; exact Hnd|].
    split; reflexivity.
Defined.

(** ** Which countries get a trend series *)

Lemma string_length_app (s t : string) :
  String.length (s +:+ t) = (String.length s + String.length t)%nat.
Proof.
  induction s as [|a s IH]; [reflexivity|].
  change (String.length (String a s +:+ t)) with (S (String.length (s +:+ t))).
  rewrite IH. reflexivity.
Qed.

Lemma string_app_cancel_r (s1 s2 t : string) : s1 +:+ t = s2 +:+ t -> s1 = s2.
Proof.
  revert s2. induction s1 as [|a s1 IH]; intros [|b s2] H.
  - reflexivity.
  - apply (f_equal String.length) in H. rewrite !string_length_app in H.
    cbn [String.length] in H. lia.
  - apply (f_equal String.length) in H. rewrite !string_length_app in H.
    cbn [String.length] in H. lia.
  - change (String a (s1 +:+ t) = String b (s2 +:+ t)) in H.
    injection H as -> H. f_equal. apply IH, H.
Qed.








(** ** Missing values: zero in the fit, missing in the raw series *)

Lemma select_map {A B : Type} (f : A -> B) (mask : list bool) (l : list A) :
  select mask (map f l) = map f (select mask l).
Proof.
  revert l. induction mask as [|b mask IH]; intros [|x l]; cbn [select map];
    try reflexivity.
  destruct b; cbn [map]; rewrite IH; reflexivity.
Qed.

(** Selecting by a mask computed from the records is filtering the
    records. *)
Lemma select_records {A B : Type} (p : A -> bool) (f : A -> B) (l : list A) :
  select (map p l) (map f l) = map f (List.filter p l).
Proof.
  induction l as [|x l IH]; cbn [map select List.filter]; [reflexivity|].
  destruct (p x); cbn [map]; rewrite IH; reflexivity.
Qed.



Lemma floats_inv (col : list json) (qs : list Q) :
  floats col = Some qs -> col = map JNum qs.
Proof.
  revert qs. induction col as [|c col IH]; intros qs; cbn [floats].
  - intros [= <-]. reflexivity.
  - destruct c as [|b|q|s|l|m]; try discriminate.
    destruct (floats col) as [qs'|]; cbn [option_map]; [|discriminate].
    intros [= <-]. cbn [map]. f_equal. apply IH. reflexivity.
Qed.


(** The trend of a country, computed from its records alone. *)
Lemma estimate_of_records parse_numeric (recs : list record) (k : string) :
  has_key "countryiso3code" recs -> has_key "date" recs -> has_key "value" recs ->
  let mine := List.filter (fun r => cell_is k (cell_of "countryiso3code" r)) recs in
  let cx := map (fun r => coerce_cell parse_numeric (cell_of "date" r)) mine in
  let cy := map (fun r => coerce_cell parse_numeric (cell_of "value" r)) mine in
  estimate (normalized parse_numeric recs) k
  = match mine with
    | [] => Ok None
    | _ :: _ =>
        rbind (np_polyfit cx (map fillna0 cy)) (fun z =>
        Ok (Some {| slope := fst z; intercept := snd z;
                    points_x := cx; points_y := poly1d_col z cx |}))
    end.
Proof.
  intros Hc Hd Hv. cbv zeta. unfold estimate, getitem, subscript.
  rewrite normalized_other by discriminate.
  rewrite (DataFrame_column _ _ Hc). cbn [rbind].
  rewrite normalized_date, normalized_value, !to_numeric_coerce_cells. cbn [rbind].
  rewrite map_map.
  rewrite !(select_records (fun r => cell_is k (cell_of "countryiso3code" r))).
  destruct (List.filter (fun r => cell_is k (cell_of "countryiso3code" r)) recs);
    reflexivity.
Qed.




(** * Further properties of the script *)

(** ** [fetch_wb_data]: when it raises, what it stores, what it sends *)

(** X1: [fetch_wb_data]'s handling of a response raises in exactly three
    situations, all under status 200: the body does not decode as JSON;
    the payload is null, a boolean or a number (no length); the payload is
    an object of two or more members (no member 1).  Every other response
    returns. *)
Theorem fetch_result_raises (r : response) (e : exn) :
  fetch_result r = Raise e <->
  status_code r = 200
  /\ ((body r = None /\ e = JSONDecodeError)
      \/ (exists v, body r = Some v
                    /\ (v = JNull \/ (exists b, v = JBool b) \/ (exists q, v = JNum q))
                    /\ e = TypeError)
      \/ (exists m, body r = Some (JObj m) /\ (2 <= length m)%nat /\ e = KeyError "1")).
Proof.
  unfold fetch_result, response_json. split.
  - destruct (Z.eqb_spec (status_code r) 200) as [Hs|Hs]; [|discriminate].
    intros H. split; [exact Hs|].
    destruct (body r) as [v|]; cbn [rbind] in H.
    + destruct v as [|b|q|s|l|m]; cbn [py_len rbind] in H.
      * injection H as <-. right; left. exists JNull. auto.
      * injection H as <-. right; left. exists (JBool b). eauto 6.
      * injection H as <-. right; left. exists (JNum q). eauto 6.
      * destruct (1 <? Z.of_nat (String.length s)) eqn:Hl; [|discriminate].
        destruct s as [|a [|a' s]]; cbn [String.length] in Hl; try discriminate.
      * destruct (1 <? Z.of_nat (length l)) eqn:Hl; [|discriminate].
        destruct l as [|x [|y l]]; cbn [length] in Hl; try discriminate.
      * destruct (1 <? Z.of_nat (length m)) eqn:Hl; [|discriminate].
        cbn [py_getitem1 rbind] in H. injection H as <-.
        right; right. exists m. apply Z.ltb_lt in Hl. repeat split; [lia].
    + injection H as <-. left. auto.
  - intros [Hs [[Hb ->] | [(v & Hb & Hv & ->) | (m & Hb & Hm & ->)]]];
      rewrite Hs, Hb; change (200 =? 200) with true; cbn [rbind].
    + reflexivity.
    + destruct Hv as [->|[[b ->]|[q ->]]]; reflexivity.
    + cbn [py_len rbind].
      assert (Hl : (1 <? Z.of_nat (length m)) = true) by (apply Z.ltb_lt; lia).
      rewrite Hl. reflexivity.
Qed.

Section MoreHostFacts.
Context {W : Type}.
Variable http_get : request -> W -> net_reply * W.

(** A call that goes to the network logs the request of its arguments. *)
Lemma body_sent_request a (h : host W) :
  sent (snd (fetch_wb_data_body http_get a h)) = sent h ++ [request_of a].
Proof.
  destruct a as [[[ind c] s] e]. unfold fetch_wb_data_body, request_of.
  pose proof (requests_get_sent http_get (build_request ind c s e) h) as H.
  destruct (requests_get http_get (build_request ind c s e) h) as [r h']. exact H.
Qed.

(** The log of one call: unchanged on a hit, one more request on a miss. *)
Lemma fetch_log a (h : host W) :
  sent (snd (fetch_wb_data http_get a h))
  = match cache h !! a with
    | Some _ => sent h
    | None => sent h ++ [request_of a]
    end.
Proof.
  unfold fetch_wb_data, cache_data. destruct (cache h !! a) as [v|]; [reflexivity|].
  pose proof (body_sent_request a h) as Hs.
  destruct (fetch_wb_data_body http_get a h) as [[v1|e|] h']; exact Hs.
Qed.

(** The store after one call: a call that misses and returns adds its own
    entry; nothing else changes. *)
Lemma fetch_store a (h : host W) :
  cache (snd (fetch_wb_data http_get a h))
  = match cache h !! a, fst (fetch_wb_data http_get a h) with
    | None, Ok v => <[a := v]> (cache h)
    | _, _ => cache h
    end.
Proof.
  unfold fetch_wb_data, cache_data. destruct (cache h !! a) as [v|] eqn:Ha; [reflexivity|].
  pose proof (body_cache http_get a h) as Hc.
  destruct (fetch_wb_data_body http_get a h) as [[v1|e|] h']; cbn [fst snd cache] in *;
    congruence.
Qed.
End MoreHostFacts.



(** X3: the log of requests is append-only, a call sends at most one
    request, and the only requests ever sent are those of the calls made:
    after any sequence of calls the log is the old log followed by at most
    one request per call, each built from the arguments of one of the
    calls. *)
Theorem requests_come_from_calls
    {W : Type} (http_get : request -> W -> net_reply * W)
    (calls : list fetch_args) (h : host W) :
  exists more,
    sent (fetch_many http_get calls h) = sent h ++ more
    /\ (length more <= length calls)%nat
    /\ forall rq, rq ∈ more -> exists a, a ∈ calls /\ rq = request_of a.
Proof.
  revert h. induction calls as [|c calls IH]; intros h; cbn [fetch_many].
  - exists []. rewrite app_nil_r. repeat split; [cbn; lia|].
    intros rq Hrq. apply elem_of_nil in Hrq. destruct Hrq.
  - destruct (IH (snd (fetch_wb_data http_get c h))) as (more & Hs & Hl & Hreq).
    rewrite fetch_log in Hs. destruct (cache h !! c) as [v|].
    + exists more. split; [exact Hs|]. split; [cbn [length]; lia|].
      intros rq Hrq. destruct (Hreq rq Hrq) as (a & Ha & ->).
      exists a. split; [apply elem_of_cons; auto|reflexivity].
    + exists (request_of c :: more). split; [rewrite Hs, <- app_assoc; reflexivity|].
      split; [cbn [length]; lia|].
      intros rq Hrq. apply elem_of_cons in Hrq as [->|Hrq].
      * exists c. split; [apply elem_of_cons; auto|reflexivity].
      * destruct (Hreq rq Hrq) as (a & Ha & ->).
        exists a. split; [apply elem_of_cons; auto|reflexivity].
Qed.

Section MorePageFacts.
Context {W : Type}.
Variable http_get : request -> W -> net_reply * W.
Variable parse_numeric : string -> option (option Q).

(** With a selection, a run of the page is a call of [fetch_wb_data]
    followed by the drawing of what it returned. *)
Lemma main_fetch country indicator show_trend start_date end_date (h : host W) :
  country <> [] ->
  main parse_numeric http_get country indicator show_trend start_date end_date h
  = (match fst (fetch_wb_data http_get (indicator, country, start_date, end_date) h) with
     | Ok fetched => render parse_numeric fetched indicator country show_trend
     | Raise e => Error e
     | Unmodelled => OutOfModel
     end,
     snd (fetch_wb_data http_get (indicator, country, start_date, end_date) h)).
Proof.
  intros Hsel. unfold main. destruct country as [|c0 cs]; [congruence|].
  destruct (fetch_wb_data http_get (indicator, c0 :: cs, start_date, end_date) h)
    as [[v|e|] h']; reflexivity.
Qed.
End MorePageFacts.

(** X4: the trend checkbox is not part of what [fetch_wb_data] is keyed
    on: once a run of the page has fetched its data, a rerun with the same
    countries, indicator and years -- with the checkbox in either position
    -- draws from the stored value and leaves the host as it is; no request
    is sent. *)
Theorem trend_toggle_does_not_refetch
    {W : Type} (http_get : request -> W -> net_reply * W)
    (parse_numeric : string -> option (option Q))
    (country : list string) (indicator : string) (show_trend show_trend' : bool)
    (start_date end_date : Z) (h : host W) (fetched : option json) :
  country <> [] ->
  fst (fetch_wb_data http_get (indicator, country, start_date, end_date) h) = Ok fetched ->
  let h1 := snd (main parse_numeric http_get country indicator show_trend
                      start_date end_date h) in
  main parse_numeric http_get country indicator show_trend' start_date end_date h1
  = (render parse_numeric fetched indicator country show_trend', h1).
Proof.
  intros Hsel Hf h1. subst h1.
  rewrite (main_fetch http_get parse_numeric _ _ show_trend _ _ h) by exact Hsel.
  cbn [snd]. rewrite (main_fetch http_get parse_numeric) by exact Hsel.
  assert (Hst : cache (snd (fetch_wb_data http_get (indicator, country, start_date, end_date) h))
                !! ((indicator, country, start_date, end_date) : fetch_args) = Some fetched).
  { eapply fetch_stores. rewrite <- Hf. apply surjective_pairing. }
  rewrite (fetch_hit http_get _ _ _ Hst). reflexivity.
Qed.

Lemma trend_toggle_does_not_refetch_witness :
  sent (snd (main parse_decimal scripted ["USA"] "NY.GDP.MKTP.CD" false 2000 2020
               (snd (main parse_decimal scripted ["USA"] "NY.GDP.MKTP.CD" true 2000 2020
                       (fresh_host [Reply (ok_response (envelope sample_records))])))))
  = [request_of sample_args].
Proof.
  pose proof (trend_toggle_does_not_refetch scripted parse_decimal
                ["USA"] "NY.GDP.MKTP.CD" true false 2000 2020
                (fresh_host [Reply (ok_response (envelope sample_records))])
                (Some (JArr (map JObj sample_records)))) as H.
  cbv zeta in H. rewrite H.
  - reflexivity.
  - discriminate.
  - reflexivity.
Defined.

(** X5: a run of the page whose fetch raises shows the error, stores
    nothing and has sent exactly one request; the store is the one the run
    started with, so the same run made again goes to the network again. *)
Theorem failed_run_stores_nothing
    {W : Type} (http_get : request -> W -> net_reply * W)
    (parse_numeric : string -> option (option Q))
    (country : list string) (indicator : string) (show_trend : bool)
    (start_date end_date : Z) (h : host W) (e : exn) :
  country <> [] ->
  fst (fetch_wb_data http_get (indicator, country, start_date, end_date) h) = Raise e ->
  let run := main parse_numeric http_get country indicator show_trend
                  start_date end_date h in
  fst run = Error e
  /\ cache (snd run) = cache h
  /\ sent (snd run) = sent h ++ [request_of (indicator, country, start_date, end_date)]
  /\ cache (snd run) !! ((indicator, country, start_date, end_date) : fetch_args) = None.
Proof.
  intros Hsel Hf run. subst run. rewrite (main_fetch http_get parse_numeric) by exact Hsel.
  cbn [fst snd]. rewrite Hf, fetch_store, fetch_log, Hf.
  destruct (cache h !! ((indicator, country, start_date, end_date) : fetch_args))
    as [v|] eqn:Hc.
  - rewrite (fetch_hit http_get _ _ _ Hc) in Hf. discriminate Hf.
  - repeat split. exact Hc.
Qed.

Lemma failed_run_stores_nothing_witness :
  fst (main parse_decimal scripted ["USA"] "NY.GDP.MKTP.CD" true 2000 2020
            (fresh_host [TransportFailure]))
  = Error ConnectionError
  /\ cache (snd (main parse_decimal scripted ["USA"] "NY.GDP.MKTP.CD" true 2000 2020
                      (fresh_host [TransportFailure])))
     = ∅.
Proof.
  destruct (failed_run_stores_nothing scripted parse_decimal
              ["USA"] "NY.GDP.MKTP.CD" true 2000 2020
              (fresh_host [TransportFailure]) ConnectionError) as (Hp & Hc & _).
  - discriminate.
  - reflexivity.
  - split; [exact Hp|exact Hc].
Defined.

(** ** Normalisation: what it changes and which exception wins *)

Lemma setitem_names (df : DataFrame) (k : string) (col : list json) :
  dict_get k df <> None -> map fst (setitem df k col) = map fst df.
Proof.
  induction df as [|[k0 c] df IH]; cbn [setitem dict_get map fst]; [congruence|].
  destruct (String.eqb_spec k k0) as [->|Hne]; cbn [map fst]; [reflexivity|].
  intros H. rewrite IH by exact H. reflexivity.
Qed.

(** The strict conversion stops at the first cell that does not convert. *)
Lemma to_numeric_first_bad parse_numeric (pre post : list json) (c : json) (e : exn) :
  Forall (fun c => exists c', to_numeric_cell parse_numeric c = Ok c') pre ->
  to_numeric_cell parse_numeric c = Raise e ->
  to_numeric parse_numeric (pre ++ c :: post) = Raise e.
Proof.
  intros Hpre Hc. induction Hpre as [|c0 pre [c0' H0] Hpre IH]; cbn [app to_numeric].
  - rewrite Hc. reflexivity.
  - rewrite H0. cbn [rbind]. rewrite IH. reflexivity.
Qed.

(** X6: normalisation touches the date and the value column only: the
    frame it returns has the columns of [pd.DataFrame(data)], under the
    same names and in the same order, one cell per record in each, and
    every column other than date and value is cell for cell the one
    [pd.DataFrame] built. *)
Theorem normalize_changes_two_columns
    (parse_numeric : string -> option (option Q)) (data : list record) (df : DataFrame) :
  normalize parse_numeric data = Ok df ->
  map fst df = map fst (pd_DataFrame data)
  /\ rows_are (length data) df
  /\ forall k, k <> "date" -> k <> "value" ->
               dict_get k df = dict_get k (pd_DataFrame data).
Proof.
  intros H. apply normalize_inv in H as (Hd & Hv & _ & ->).
  split; [|split].
  - unfold normalized. rewrite !setitem_names; [reflexivity| |].
    + rewrite (DataFrame_column _ _ Hd). discriminate.
    + rewrite dict_get_setitem_ne by discriminate.
      rewrite (DataFrame_column _ _ Hv). discriminate.
  - apply normalized_rows.
  - intros k H1 H2. apply normalized_other; assumption.
Qed.

Lemma normalize_changes_two_columns_witness :
  map fst (normalized parse_decimal sample_records) = ["countryiso3code"; "date"; "value"]
  /\ dict_get "countryiso3code" (normalized parse_decimal sample_records)
     = Some [JStr "USA"; JStr "CHN"; JStr "USA"; JStr "CHN"].
Proof.
  destruct (normalize_changes_two_columns parse_decimal sample_records
              (normalized parse_decimal sample_records)) as (Hn & _ & Hk).
  - reflexivity.
  - split; [rewrite Hn; reflexivity|].
    rewrite Hk by discriminate. reflexivity.
Defined.

(** X7: which exception normalisation raises.  Without a date field in any
    record it is [KeyError 'date'], whatever else the records hold (this
    includes the empty list).  Otherwise the first year, in record order,
    that does not convert decides: the exception is that cell's, whatever
    the later records and the value fields hold.  And when every year
    converts but no record has a value field it is [KeyError 'value']. *)
Theorem normalize_first_error
    (parse_numeric : string -> option (option Q)) (data : list record) :
  (~ has_key "date" data -> normalize parse_numeric data = Raise (KeyError "date"))
  /\ (forall pre r post e,
         data = pre ++ r :: post ->
         Forall (fun r => exists c', to_numeric_cell parse_numeric (cell_of "date" r) = Ok c')
                pre ->
         to_numeric_cell parse_numeric (cell_of "date" r) = Raise e ->
         normalize parse_numeric data = Raise e)
  /\ (has_key "date" data ->
      Forall (fun r => exists c', to_numeric_cell parse_numeric (cell_of "date" r) = Ok c')
             data ->
      ~ has_key "value" data ->
      normalize parse_numeric data = Raise (KeyError "value")).
Proof.
  split; [|split].
  - intros Hd. unfold normalize, getitem, subscript.
    rewrite (DataFrame_no_column _ _ Hd). reflexivity.
  - intros pre r post e -> Hpre Hr.
    assert (Hk : has_key "date" (pre ++ r :: post)).
    { exists r. split; [apply elem_of_app; right; apply elem_of_cons; auto|].
      intros Hnone. rewrite (cell_of_absent _ _ Hnone) in Hr. discriminate Hr. }
    unfold normalize, getitem, subscript.
    rewrite (DataFrame_column _ _ Hk). cbn [rbind].
    rewrite map_app. cbn [map].
    rewrite (to_numeric_first_bad parse_numeric _ _ _ e); [reflexivity| |exact Hr].
    rewrite Forall_fmap. exact Hpre.
  - intros Hd Hall Hv. unfold normalize, getitem, subscript.
    rewrite (DataFrame_column _ _ Hd). cbn [rbind].
    rewrite to_numeric_all_ok by (rewrite Forall_fmap; exact Hall). cbn [rbind].
    rewrite dict_get_setitem_ne by discriminate.
    rewrite (DataFrame_no_column _ _ Hv). reflexivity.
Qed.

Lemma normalize_first_error_witness :
  normalize parse_decimal
    [wb_record "USA" "2000" (JNum 5); wb_record "USA" "2020Q1" (JStr "n/a");
     [("countryiso3code", JStr "USA"); ("date", JArr [JNum 1])]]
  = Raise ValueError.
Proof.
  refine (proj1 (proj2 (normalize_first_error parse_decimal _))
            [wb_record "USA" "2000" (JNum 5)] (wb_record "USA" "2020Q1" (JStr "n/a"))
            [[("countryiso3code", JStr "USA"); ("date", JArr [JNum 1])]]
            ValueError eq_refl _ eq_refl).
  repeat constructor. eexists. reflexivity.
Defined.

(** ** The chart: missing keys, and what the raw series hold *)

(** X8: two missing keys stop the chart after normalisation has gone
    through.  An indicator code that is not in [wb_indicators] raises
    [KeyError] for that code; and with a known indicator, records of which
    none has a country code field make [px.line] reject its colour column
    with [ValueError].  In both cases nothing is drawn, with or without
    trends. *)
Theorem chart_missing_keys
    (parse_numeric : string -> option (option Q)) (recs : list record) (df : DataFrame)
    (indicator : string) (selected_countries : list string) (show_trend : bool) :
  normalize parse_numeric recs = Ok df ->
  (dict_get indicator wb_indicators = None ->
   chart parse_numeric (JArr (map JObj recs)) indicator selected_countries show_trend
   = Raise (KeyError indicator))
  /\ (dict_get indicator wb_indicators <> None ->
      ~ has_key "countryiso3code" recs ->
      chart parse_numeric (JArr (map JObj recs)) indicator selected_countries show_trend
      = Raise ValueError).
Proof.
  intros Hn. pose proof (normalize_inv _ _ _ Hn) as (_ & _ & _ & ->).
  unfold chart. rewrite as_records_objects. cbn [rbind]. rewrite Hn. cbn [rbind].
  unfold subscript. split.
  - intros ->. reflexivity.
  - intros Hlab Hc. destruct (dict_get indicator wb_indicators) as [label|]; [|congruence].
    cbn [rbind]. unfold px_line, px_column.
    rewrite normalized_date, normalized_value. cbn [rbind].
    rewrite normalized_other by discriminate.
    rewrite (DataFrame_no_column _ _ Hc). reflexivity.
Qed.

Lemma chart_missing_keys_witness :
  chart parse_decimal (JArr (map JObj sample_records)) "XX.UNKNOWN" ["USA"] true
  = Raise (KeyError "XX.UNKNOWN")
  /\ chart parse_decimal (JArr (map JObj [[("date", JStr "2000"); ("value", JNum 1)]]))
           "NY.GDP.MKTP.CD" ["USA"] true
     = Raise ValueError.
Proof.
  split.
  - refine (proj1 (chart_missing_keys parse_decimal sample_records
                     (normalized parse_decimal sample_records)
                     "XX.UNKNOWN" ["USA"] true eq_refl) eq_refl).
  - refine (proj2 (chart_missing_keys parse_decimal
                     [[("date", JStr "2000"); ("value", JNum 1)]]
                     (normalized parse_decimal [[("date", JStr "2000"); ("value", JNum 1)]])
                     "NY.GDP.MKTP.CD" ["USA"] true eq_refl) _ _).
    + discriminate.
    + intros (r & Hr & Hk). apply elem_of_cons in Hr as [->|Hr].
      * apply Hk. reflexivity.
      * apply elem_of_nil in Hr. exact Hr.
Defined.







(** ** The trend: its points *)

Lemma select_length {A B : Type} (mask : list bool) (l1 : list A) (l2 : list B) :
  length l1 = length l2 -> length (select mask l1) = length (select mask l2).
Proof.
  revert l1 l2. induction mask as [|b mask IH]; intros [|x l1] [|y l2] Hl;
    try discriminate Hl; cbn [select]; try reflexivity.
  injection Hl as Hl. destruct b; cbn [length]; rewrite (IH l1 l2 Hl); reflexivity.
Qed.

(** X10: a trend line has one predicted point per row of its country, in
    row order: its years are the years of those rows, and each predicted
    value is the value of the fitted line [slope * year + intercept] at
    that year. *)
Theorem trend_points_on_line
    (df : DataFrame) (country : string) (tl : TrendLine) (c d : list json) :
  getitem df "countryiso3code" = Ok c ->
  getitem df "date" = Ok d ->
  length d = length c ->
  estimate df country = Ok (Some tl) ->
  points_x tl = select (map (cell_is country) c) d
  /\ length (points_x tl) = length (rows_of df country)
  /\ Forall2 (fun x y => exists q, x = JNum q
                                   /\ y = JNum (poly1d (slope tl, intercept tl) q))
             (points_x tl) (points_y tl).
Proof.
  intros Hc Hd Hlen. unfold estimate, rows_of. rewrite Hc. cbn [rbind].
  destruct (select (map (cell_is country) c) c) as [|c0 cs] eqn:Hrows; [discriminate|].
  rewrite Hd. cbn [rbind].
  destruct (getitem df "value") as [v|e|]; cbn [rbind]; try discriminate.
  destruct (np_polyfit (select (map (cell_is country) c) d)
                       (map fillna0 (select (map (cell_is country) c) v)))
    as [z|e|] eqn:Hfit; cbn [rbind]; try discriminate.
  intros [= <-]. cbn [points_x points_y slope intercept].
  split; [reflexivity|].
  split; [rewrite <- Hrows; apply select_length, Hlen|].
  unfold np_polyfit in Hfit.
  destruct (floats (select (map (cell_is country) c) d)) as [qs|] eqn:Hq; [|discriminate].
  apply floats_inv in Hq. rewrite Hq. clear.
  induction qs as [|q qs IH]; cbn [map poly1d_col]; constructor; [|exact IH].
  exists q. split; reflexivity.
Qed.

Lemma trend_points_on_line_witness :
  exists tl,
    estimate (normalized parse_decimal sample_records) "USA" = Ok (Some tl)
    /\ points_x tl = [JNum 2000; JNum 2001]
    /\ length (points_x tl) = length (rows_of (normalized parse_decimal sample_records) "USA").
Proof.
  eexists. split; [vm_compute; reflexivity|].
  match goal with
  | |- points_x ?t = _ /\ _ =>
      destruct (trend_points_on_line (normalized parse_decimal sample_records) "USA" t
                  [JStr "USA"; JStr "CHN"; JStr "USA"; JStr "CHN"]
                  [JNum 2000; JNum 2000; JNum 2001; JNum 2001])
        as (Hx & Hl & _); try reflexivity
  end.
  split; [exact Hx|exact Hl].
Defined.

(** ** The fit is a least-squares fit *)

Lemma Qsum_cons (x : Q) (l : list Q) : Qsum (x :: l) = (x + Qsum l)%Q.
Proof. reflexivity. Qed.

(** The squared error of a line, in terms of the sums. *)
Lemma sse_expand (a b : Q) (xs ys : list Q) :
  length xs = length ys ->
  let s := sums xs ys in
  (sse (a, b) xs ys
   == Qsum (map (fun y => y * y) ys) - 2 * a * s_xy s - 2 * b * s_y s
      + a * a * s_xx s + 2 * a * b * s_x s + s_n s * (b * b))%Q.
Proof.
  revert ys. induction xs as [|x xs IH]; intros [|y ys] Hl; try discriminate Hl; cbv zeta.
  - unfold sse. cbn. ring.
  - injection Hl as Hl. specialize (IH ys Hl). cbv zeta in IH.
    unfold sse in *. cbn [sums s_n s_x s_y s_xx s_xy zip_with map length fst snd] in *.
    rewrite !Qsum_cons, IH, count_succ. ring.
Qed.

Lemma quadratic_form (al be : Q) (xs ys : list Q) :
  let s := sums xs ys in
  (al * al * s_xx s + 2 * al * be * s_x s + s_n s * (be * be)
   == Qsum (map (fun x => (al * x + be) * (al * x + be)) xs))%Q.
Proof.
  cbv zeta. cbn [sums s_n s_x s_xx]. induction xs as [|x xs IH].
  - cbn. ring.
  - cbn [map length]. rewrite !Qsum_cons, count_succ, <- IH. ring.
Qed.

(** Sums over abscissae that are all equal to [x0]. *)
Lemma constant_abscissae (x0 : Q) (xs ys : list Q) :
  Forall (fun x => x == x0)%Q xs ->
  length xs = length ys ->
  let s := sums xs ys in
  (s_x s == s_n s * x0)%Q /\ (s_xx s == x0 * s_x s)%Q /\ (s_xy s == x0 * s_y s)%Q.
Proof.
  intros Hall. revert ys. induction Hall as [|x xs Hx Hall IH]; intros [|y ys] Hl;
    try discriminate Hl; cbv zeta.
  - cbn. repeat split; ring.
  - injection Hl as Hl. destruct (IH ys Hl) as (H1 & H2 & H3).
    cbn [sums s_n s_x s_y s_xx s_xy zip_with map length] in *.
    rewrite !Qsum_cons, count_succ, H1, H2, H3, H1, Hx. repeat split; ring.
Qed.

Lemma sums_n_positive (xs ys : list Q) : xs <> [] -> ~ (s_n (sums xs ys) == 0)%Q.
Proof.
  intros Hne. cbn [sums s_n]. destruct xs as [|x xs]; [congruence|].
  unfold Qeq. cbn [length Qnum Qden inject_Z]. lia.
Qed.

(** Whatever [polyfit1] returns solves both normal equations. *)
Lemma polyfit1_normal_equations (xs ys : list Q) (a b : Q) :
  polyfit1 xs ys = Ok (a, b) ->
  let s := sums xs ys in
  length xs = length ys
  /\ (a * s_xx s + b * s_x s == s_xy s)%Q
  /\ (a * s_x s + b * s_n s == s_y s)%Q.
Proof.
  unfold polyfit1. destruct xs as [|x xs]; [discriminate|].
  destruct (Nat.eqb_spec (length (x :: xs)) (length ys)) as [Hl|Hl]; [|discriminate].
  cbn [negb]. intros Hfit. cbv zeta. split; [exact Hl|].
  destruct (Qeq_dec (spread (sums (x :: xs) ys)) 0) as [Hsp|Hsp].
  - destruct (lstsq_line_degenerate_direction _ a b Hsp
                (sums_n_positive (x :: xs) ys ltac:(discriminate)) Hfit) as [Hdir Hsum].
    split; [|exact Hsum].
    assert (Hall : Forall (fun z => z == x)%Q (x :: xs)).
    { apply Forall_forall. intros z Hz.
      apply (proj1 (spread_zero_iff (x :: xs) ys) Hsp); [exact Hz|apply elem_of_cons; auto]. }
    destruct (constant_abscissae x (x :: xs) ys Hall Hl) as (H1 & H2 & H3).
    cbv zeta in *.
    assert (Hb : (b * s_x (sums (x :: xs) ys) == x * (b * s_n (sums (x :: xs) ys)))%Q).
    { rewrite H1. ring. }
    rewrite H3, <- Hsum, H2, Hb. ring.
  - apply lstsq_line_regular; assumption.
Qed.

(** X11: the line [np.polyfit] returns is a least-squares line: whenever
    the fit returns coefficients, no other line has a smaller sum of
    squared residuals on the same points.  This holds in the rank-deficient
    case too, where the returned line is one minimiser among many. *)
Theorem polyfit_minimises_squared_error (xs ys : list Q) (a b : Q) :
  polyfit1 xs ys = Ok (a, b) ->
  forall a' b', (sse (a, b) xs ys <= sse (a', b') xs ys)%Q.
Proof.
  intros Hfit a' b'.
  destruct (polyfit1_normal_equations xs ys a b Hfit) as (Hl & N1 & N2). cbv zeta in *.
  pose proof (quadratic_form (a' - a) (b' - b) xs ys) as Hq. cbv zeta in Hq.
  assert (Hnn : (0 <= Qsum (map (fun x => ((a' - a) * x + (b' - b))
                                          * ((a' - a) * x + (b' - b))) xs))%Q).
  { apply Qsum_nonneg, Forall_forall. intros q Hq'.
    apply list_elem_of_fmap in Hq' as (x & -> & _). apply Qsquare_nonneg. }
  rewrite <- Hq in Hnn.
  assert (Hdiff : (sse (a', b') xs ys
                   == sse (a, b) xs ys
                      + ((a' - a) * (a' - a) * s_xx (sums xs ys)
                         + 2 * (a' - a) * (b' - b) * s_x (sums xs ys)
                         + s_n (sums xs ys) * ((b' - b) * (b' - b))))%Q).
  { rewrite (sse_expand a' b' xs ys Hl), (sse_expand a b xs ys Hl). cbv zeta.
    rewrite <- N1, <- N2. ring. }
  rewrite Hdiff. rewrite <- (Qplus_0_r (sse (a, b) xs ys)) at 1.
  apply Qplus_le_compat; [apply Qle_refl|exact Hnn].
Qed.

Lemma polyfit_minimises_squared_error_witness :
  (sse (5 # 2, -9989 # 2) [2000; 2001; 2002] [5; 9; 10]
   <= sse (0, 8) [2000; 2001; 2002] [5; 9; 10])%Q
  /\ (sse (1 # 800, 5 # 2) [2000] [5] <= sse (0, 0) [2000] [5])%Q.
Proof.
  split.
  - apply (polyfit_minimises_squared_error [2000; 2001; 2002] [5; 9; 10]
             (5 # 2) (-9989 # 2))%Q. reflexivity.
  - apply (polyfit_minimises_squared_error [2000] [5] (1 # 800) (5 # 2))%Q. reflexivity.
Defined.

(** Sums over ordinates that lie on the line [a * x + b]. *)
Lemma collinear_sums (a b : Q) (xs : list Q) :
  let s := sums xs (map (fun x => a * x + b)%Q xs) in
  (s_y s == a * s_x s + s_n s * b)%Q /\ (s_xy s == a * s_xx s + b * s_x s)%Q.
Proof.
  cbv zeta. induction xs as [|x xs [IH1 IH2]].
  - cbn. split; ring.
  - cbn [sums s_n s_x s_y s_xx s_xy zip_with map length] in *.
    rewrite !Qsum_cons, count_succ, IH1, IH2. split; ring.
Qed.

(** X12: values that lie exactly on a line are fitted by that line: when
    the rows of a country have at least two different years and every value
    is [a * year + b], the fit returns slope [a] and intercept [b], and the
    trend passes through every point. *)
Theorem collinear_points_are_recovered (xs : list Q) (a b x1 x2 : Q) :
  x1 ∈ xs -> x2 ∈ xs -> ~ (x1 == x2)%Q ->
  exists a' b',
    polyfit1 xs (map (fun x => a * x + b)%Q xs) = Ok (a', b')
    /\ (a' == a)%Q /\ (b' == b)%Q
    /\ Forall (fun x => poly1d (a', b') x == a * x + b)%Q xs.
Proof.
  intros H1 H2 Hne.
  set (ys := map (fun x => a * x + b)%Q xs).
  assert (Hsp : ~ (spread (sums xs ys) == 0)%Q).
  { intros Hz. apply Hne. apply (proj1 (spread_zero_iff xs ys) Hz); assumption. }
  assert (Hnil : xs <> []).
  { intros ->. apply elem_of_nil in H1. exact H1. }
  destruct (collinear_sums a b xs) as [Hsy Hsxy]. cbv zeta in Hsy, Hsxy. fold ys in Hsy, Hsxy.
  rewrite polyfit1_sums by (try exact Hnil; unfold ys; rewrite length_map; reflexivity).
  unfold lstsq_line.
  destruct (Qeq_bool (spread (sums xs ys)) 0) eqn:Hd.
  { apply Qeq_bool_iff in Hd. contradiction. }
  cbn [negb]. eexists _, _. split; [reflexivity|].
  assert (Ha : (Qred ((s_n (sums xs ys) * s_xy (sums xs ys)
                       - s_x (sums xs ys) * s_y (sums xs ys)) / spread (sums xs ys)) == a)%Q).
  { rewrite Qred_correct, Hsy, Hsxy. unfold spread in *. field. exact Hsp. }
  assert (Hb : (Qred ((s_xx (sums xs ys) * s_y (sums xs ys)
                       - s_x (sums xs ys) * s_xy (sums xs ys)) / spread (sums xs ys)) == b)%Q).
  { rewrite Qred_correct, Hsy, Hsxy. unfold spread in *. field. exact Hsp. }
  split; [exact Ha|]. split; [exact Hb|].
  apply Forall_forall. intros x _. unfold poly1d. cbn [fst snd].
  rewrite Qred_correct, Ha, Hb. reflexivity.
Qed.

Lemma collinear_points_are_recovered_witness :
  exists a' b',
    polyfit1 [2000; 2001; 2002]%Q [7; 10; 13]%Q = Ok (a', b')
    /\ (a' == 3)%Q /\ (b' == -5993)%Q.
Proof.
  destruct (collinear_points_are_recovered [2000; 2001; 2002]%Q 3 (-5993) 2000 2001)%Q
    as (a' & b' & Hfit & Ha & Hb & _).
  - apply elem_of_cons; left; reflexivity.
  - apply elem_of_cons; right; apply elem_of_cons; left; reflexivity.
  - discriminate.
  - exists a', b'. split; [|split; assumption].
    rewrite <- Hfit. reflexivity.
Defined.

(** ** The page draws a chart for well-formed data *)

Lemma floats_nums (qs : list Q) : floats (map JNum qs) = Some qs.
Proof.
  induction qs as [|q qs IH]; cbn [map floats]; [reflexivity|]. rewrite IH. reflexivity.
Qed.

Lemma floats_fillna (col : list json) :
  Forall numeric_cell col ->
  exists vs, floats (map fillna0 col) = Some vs /\ length vs = length col.
Proof.
  induction 1 as [|c col Hc Hcol (vs & Hvs & Hl)]; [exists []; split; reflexivity|].
  cbn [map floats]. destruct Hc as [->|[q ->]]; cbn [fillna0]; rewrite Hvs; cbn [option_map].
  - exists (0%Q :: vs). split; [reflexivity|cbn [length]; congruence].
  - exists (q :: vs). split; [reflexivity|cbn [length]; congruence].
Qed.

Lemma select_Forall {A : Type} (P : A -> Prop) (mask : list bool) (l : list A) :
  Forall P l -> Forall P (select mask l).
Proof.
  intros H. revert mask. induction H as [|x l Hx Hl IH]; intros [|b mask]; cbn [select];
    try constructor.
  destruct b; [constructor; [exact Hx|apply IH]|apply IH].
Qed.

Lemma Qsum_positive (l : list Q) :
  l <> [] -> Forall (fun q => 0 < q)%Q l -> (0 < Qsum l)%Q.
Proof.
  intros Hne Hall. destruct Hall as [|q l Hq Hl]; [congruence|].
  rewrite Qsum_cons. rewrite <- (Qplus_0_r 0).
  apply Qplus_lt_le_compat; [exact Hq|].
  apply Qsum_nonneg. eapply Forall_impl; [exact Hl|]. intros x Hx. apply Qlt_le_weak, Hx.
Qed.

(** With positive abscissae the fit returns. *)
Lemma polyfit1_positive (xs ys : list Q) :
  xs <> [] -> length xs = length ys -> Forall (fun q => 0 < q)%Q xs ->
  exists z, polyfit1 xs ys = Ok z.
Proof.
  intros Hne Hl Hpos. rewrite polyfit1_sums by assumption. unfold lstsq_line.
  destruct (Qeq_bool (spread (sums xs ys)) 0); cbn [negb]; [|eauto].
  destruct (Qeq_bool (s_x (sums xs ys)) 0) eqn:Hz; [|eauto].
  apply Qeq_bool_iff in Hz. cbn [sums s_x] in Hz.
  pose proof (Qsum_positive xs Hne Hpos) as Hp. rewrite Hz in Hp.
  exfalso. exact (Qlt_irrefl 0 Hp).
Qed.

Lemma estimate_returns (df : DataFrame) (k : string) (c v : list json) (qs : list Q) :
  getitem df "countryiso3code" = Ok c ->
  getitem df "date" = Ok (map JNum qs) ->
  getitem df "value" = Ok v ->
  length c = length qs ->
  length v = length qs ->
  Forall (fun q => 0 < q)%Q qs ->
  Forall numeric_cell v ->
  exists o, estimate df k = Ok o.
Proof.
  intros Hc Hd Hv Hlc Hlv Hpos Hnum. unfold estimate. rewrite Hc. cbn [rbind].
  destruct (select (map (cell_is k) c) c) as [|c0 cs] eqn:Hrows; [eauto|].
  rewrite Hd, Hv. cbn [rbind]. rewrite select_map.
  destruct (floats_fillna (select (map (cell_is k) c) v)) as (vs & Hvs & Hlvs).
  { apply select_Forall, Hnum. }
  unfold np_polyfit. rewrite floats_nums, Hvs.
  destruct (polyfit1_positive (select (map (cell_is k) c) qs) vs) as [z Hz].
  - intros Hnil. apply (f_equal (@length Q)) in Hnil.
    rewrite (select_length _ qs c) in Hnil by congruence.
    rewrite Hrows in Hnil. discriminate Hnil.
  - rewrite Hlvs. apply select_length. congruence.
  - apply select_Forall, Hpos.
  - rewrite Hz. cbn [rbind]. eauto.
Qed.

Lemma add_trends_returns (df : DataFrame) (sel : list string) :
  Forall (fun k => exists o, trend_trace df k = Ok o) sel ->
  forall fig, exists fig', add_trends df sel fig = Ok fig'.
Proof.
  induction 1 as [|k sel [o Hk] Hsel IH]; intros fig; cbn [add_trends]; [eauto|].
  rewrite Hk. cbn [rbind]. apply IH.
Qed.

Lemma strings_returns (col : list json) :
  Forall (fun c => exists s, c = JStr s) col -> exists codes, strings col = Ok codes.
Proof.
  induction 1 as [|c col [s ->] Hcol [codes IH]]; cbn [strings]; [eauto|].
  rewrite IH. cbn [rbind]. eauto.
Qed.

(** X13: for a non-empty list of well-formed records whose years are
    positive, an indicator of the catalogue and a selection of catalogue
    countries, the body of [if data:] goes through: the page shows a chart,
    not an error, with or without trends. *)
Theorem well_formed_data_is_charted
    (parse_numeric : string -> option (option Q)) (recs : list record)
    (indicator : string) (selected_countries : list string) (show_trend : bool) :
  recs <> [] ->
  Forall (well_formed_record parse_numeric) recs ->
  Forall (fun r => forall s y,
              dict_get "date" r = Some (JStr s) -> parse_numeric s = Some (Some y) ->
              (0 < y)%Q) recs ->
  dict_get indicator wb_indicators <> None ->
  Forall (fun k => dict_get k countries <> None) selected_countries ->
  exists fig,
    chart parse_numeric (JArr (map JObj recs)) indicator selected_countries show_trend
    = Ok fig
    /\ render parse_numeric (Some (JArr (map JObj recs))) indicator selected_countries
              show_trend
       = Chart fig.
Proof.
  intros Hne Hwf Hpos Hind Hsel.
  destruct (well_formed_has_keys _ _ Hne Hwf) as (Hkc & Hkd & Hkv & Hall).
  pose proof (normalize_ok parse_numeric recs Hkd Hkv Hall) as Hn.
  (* the three columns *)
  assert (Hdates : exists qs,
             to_numeric_coerce parse_numeric (map (cell_of "date") recs) = map JNum qs
             /\ length qs = length recs /\ Forall (fun q => 0 < q)%Q qs).
  { clear -Hwf Hpos. induction recs as [|r recs IH].
    - exists []. repeat split. constructor.
    - apply Forall_cons in Hwf as [(_ & (s & y & Hd & Hs & Hy) & _) Hwf].
      apply Forall_cons in Hpos as [Hp Hpos].
      destruct (IH Hwf Hpos) as (qs & Hqs & Hl & Hq).
      exists (y :: qs). unfold to_numeric_coerce in *. cbn [map].
      rewrite Hqs. rewrite (cell_of_present _ _ _ Hd). unfold coerce_cell.
      destruct s as [|a s]; [congruence|]. cbn [to_numeric_cell]. rewrite Hy.
      repeat split; [cbn [length]; congruence|].
      constructor; [eapply Hp; eassumption|exact Hq]. }
  destruct Hdates as (qs & Hqs & Hlq & Hq).
  assert (Hcodes : Forall (fun c => exists s, c = JStr s) (map (cell_of "countryiso3code") recs)).
  { apply Forall_fmap. eapply Forall_impl; [exact Hwf|].
    intros r ((code & Hc) & _). cbn. rewrite (cell_of_present _ _ _ Hc). eauto. }
  destruct (strings_returns _ Hcodes) as [codes Hs].
  assert (Hgc : getitem (normalized parse_numeric recs) "countryiso3code"
                = Ok (map (cell_of "countryiso3code") recs)).
  { unfold getitem, subscript. rewrite normalized_other by discriminate.
    rewrite (DataFrame_column _ _ Hkc). reflexivity. }
  assert (Hgd : getitem (normalized parse_numeric recs) "date" = Ok (map JNum qs)).
  { unfold getitem, subscript. rewrite normalized_date, Hqs. reflexivity. }
  assert (Hgv : getitem (normalized parse_numeric recs) "value"
                = Ok (to_numeric_coerce parse_numeric (map (cell_of "value") recs))).
  { unfold getitem, subscript. rewrite normalized_value. reflexivity. }
  assert (Htr : Forall (fun k => exists o, trend_trace (normalized parse_numeric recs) k = Ok o)
                       selected_countries).
  { eapply Forall_impl; [exact Hsel|]. intros k Hk. cbv beta in Hk.
    destruct (estimate_returns (normalized parse_numeric recs) k _ _ qs Hgc Hgd Hgv)
      as [o Ho].
    - rewrite length_map. congruence.
    - unfold to_numeric_coerce. rewrite !length_map. congruence.
    - exact Hq.
    - apply to_numeric_coerce_numeric.
    - unfold trend_trace. rewrite Ho. cbn [rbind]. destruct o as [tl|]; [|eauto].
      unfold subscript. destruct (dict_get k countries) as [label|]; [|congruence].
      cbn [rbind]. eauto. }
  assert (Hchart : exists fig,
             chart parse_numeric (JArr (map JObj recs)) indicator selected_countries
                   show_trend = Ok fig).
  { unfold chart. rewrite as_records_objects. cbn [rbind]. rewrite Hn. cbn [rbind].
    unfold subscript at 1.
    destruct (dict_get indicator wb_indicators) as [label|]; [|congruence]. cbn [rbind].
    unfold px_line, px_column.
    rewrite normalized_date, normalized_value. cbn [rbind].
    rewrite normalized_other by discriminate.
    rewrite (DataFrame_column _ _ Hkc). cbn [rbind]. rewrite Hs. cbn [rbind].
    destruct show_trend; [|eauto].
    match goal with
    | |- exists fig, rbind (add_trends ?df ?sel ?f) _ = _ =>
        destruct (add_trends_returns df sel Htr f) as [fig' Hadd]
    end.
    rewrite Hadd. cbn [rbind]. eauto. }
  destruct Hchart as [fig Hfig]. exists fig. split; [exact Hfig|].
  unfold render. destruct recs as [|r recs]; [congruence|].
  cbn [map truthy]. cbn [map] in Hfig. rewrite Hfig. reflexivity.
Qed.

Lemma well_formed_data_is_charted_witness :
  exists fig,
    render parse_decimal (Some (JArr (map JObj sample_records))) "NY.GDP.MKTP.CD"
           ["USA"; "CHN"; "FRA"] true
    = Chart fig.
Proof.
  destruct (well_formed_data_is_charted parse_decimal sample_records "NY.GDP.MKTP.CD"
              ["USA"; "CHN"; "FRA"] true) as (fig & _ & Hr).
  - discriminate.
  - repeat constructor; cbn; eauto; discriminate.
  - repeat constructor; intros s y [= <-] [= <-]; reflexivity.
  - discriminate.
  - repeat constructor; discriminate.
  - exists fig. exact Hr.
Defined.

(** ** The request: the country list can be read back *)

Lemma split_on_no_sep (sep : ascii) (s : string) :
  has_char sep s = false -> split_on sep s = [s].
Proof.
  induction s as [|a s IH]; cbn [has_char split_on]; [reflexivity|].
  intros H. apply orb_false_iff in H as [Ha Hs]. rewrite Ha, (IH Hs). reflexivity.
Qed.

Lemma split_on_app (sep : ascii) (x rest : string) :
  has_char sep x = false ->
  split_on sep (x +:+ String sep rest) = x :: split_on sep rest.
Proof.
  induction x as [|a x IH]; intros H.
  - change (EmptyString +:+ String sep rest) with (String sep rest).
    cbn [split_on]. rewrite Ascii.eqb_refl. reflexivity.
  - cbn [has_char] in H. apply orb_false_iff in H as [Ha Hx].
    change (String a x +:+ String sep rest) with (String a (x +:+ String sep rest)).
    cbn [split_on]. rewrite Ha, (IH Hx). reflexivity.
Qed.

Lemma join_cons2 (sep x y : string) (t : list string) :
  join sep (x :: y :: t) = x +:+ sep +:+ join sep (y :: t).
Proof. reflexivity. Qed.

Lemma split_join (l : list string) :
  l <> [] ->
  Forall (fun s => has_char ";" s = false) l ->
  split_on ";" (join ";" l) = l.
Proof.
  intros Hne Hall. induction Hall as [|x l Hx Hl IH]; [congruence|].
  destruct l as [|y t].
  - cbn [join]. apply split_on_no_sep, Hx.
  - rewrite join_cons2.
    change (";" +:+ join ";" (y :: t)) with (String ";" (join ";" (y :: t))).
    rewrite (split_on_app ";" x _ Hx), IH by discriminate. reflexivity.
Qed.

Lemma string_app_cancel_l (p s1 s2 : string) : p +:+ s1 = p +:+ s2 -> s1 = s2.
Proof.
  induction p as [|a p IH]; intros H; [exact H|].
  change (String a (p +:+ s1) = String a (p +:+ s2)) in H. injection H as H. apply IH, H.
Qed.

(** X14: the list of countries can be read back from the request.  For a
    non-empty list of codes that contain no semicolon, splitting the joined
    path segment at the semicolons gives the list back, in order; hence two
    such selections are sent to the same URL, for the same indicator, only
    if they are the same list. *)
Theorem countries_read_back_from_request
    (indicator : string) (l1 l2 : list string) (start_date end_date : Z) :
  l1 <> [] -> l2 <> [] ->
  Forall (fun s => has_char ";" s = false) l1 ->
  Forall (fun s => has_char ";" s = false) l2 ->
  split_on ";" (join ";" l1) = l1
  /\ (req_url (build_request indicator l1 start_date end_date)
      = req_url (build_request indicator l2 start_date end_date) ->
      l1 = l2).
Proof.
  intros Hn1 Hn2 H1 H2. split; [apply split_join; assumption|].
  unfold build_request. cbn [req_url]. intros H.
  assert (Hj : join ";" l1 = join ";" l2).
  { revert H. generalize (join ";" l1) (join ";" l2). intros j1 j2 H.
    apply (string_app_cancel_r j1 j2 ("/indicator/" +:+ indicator)).
    apply (string_app_cancel_l "/country/").
    apply (string_app_cancel_l BASE_URL). exact H. }
  rewrite <- (split_join l1 Hn1 H1), <- (split_join l2 Hn2 H2), Hj. reflexivity.
Qed.

Lemma countries_read_back_from_request_witness :
  split_on ";" (join ";" ["USA"; "CHN"; "FRA"]) = ["USA"; "CHN"; "FRA"].
Proof.
  refine (proj1 (countries_read_back_from_request "NY.GDP.MKTP.CD"
                   ["USA"; "CHN"; "FRA"] ["USA"] 2000 2020 _ _ _ _)).
  - discriminate.
  - discriminate.
  - repeat constructor.
  - repeat constructor.
Defined.

(** ** The page: layout, and when it goes to the network *)

(** X15: the title, the axis label, the legend title and the height of a
    chart that is drawn depend on the indicator alone: the title is the
    indicator's label followed by " Over Time", the value axis carries the
    label, the legend is titled "Country" and the height is 700, whatever
    the records, the selection and the trend checkbox. *)
Theorem chart_layout
    (parse_numeric : string -> option (option Q)) (d : json) (indicator : string)
    (selected_countries : list string) (show_trend : bool) (fig : figure) :
  chart parse_numeric d indicator selected_countries show_trend = Ok fig ->
  exists label,
    dict_get indicator wb_indicators = Some label
    /\ title fig = label +:+ " Over Time"
    /\ value_label fig = label
    /\ legend_title fig = "Country"
    /\ height fig = Some 700.
Proof.
  unfold chart. intros H.
  destruct d as [| | | |l|]; cbn [rbind] in H; try discriminate.
  destruct (as_records l) as [recs|e|]; cbn [rbind] in H; try discriminate.
  destruct (normalize parse_numeric recs) as [df|e|]; cbn [rbind] in H; try discriminate.
  unfold subscript in H at 1.
  destruct (dict_get indicator wb_indicators) as [label|]; cbn [rbind] in H;
    try discriminate.
  destruct (px_line df label (label +:+ " Over Time")) as [fig0|e|] eqn:Hpx;
    cbn [rbind] in H; try discriminate.
  apply px_line_inv in Hpx as (x & y & c & codes & _ & _ & _ & _ & ->).
  exists label. split; [reflexivity|].
  destruct show_trend.
  - match type of H with
    | rbind ?r _ = _ => destruct r as [fig1|e|] eqn:Hadd; cbn [rbind] in H; try discriminate
    end.
    injection H as <-. apply add_trends_data in Hadd as (_ & Ht & Hl & Hv & _).
    cbn [update_layout title value_label legend_title height] in *.
    repeat split; assumption.
  - cbn [rbind] in H. injection H as <-. repeat split.
Qed.

Lemma chart_layout_witness :
  exists fig,
    chart parse_decimal (JArr (map JObj sample_records)) "FP.CPI.TOTL.ZG" ["USA"] true
    = Ok fig
    /\ title fig = "Inflation, consumer prices (annual %) Over Time"
    /\ height fig = Some 700.
Proof.
  eexists. split; [vm_compute; reflexivity|].
  match goal with
  | |- title ?f = _ /\ _ =>
      destruct (chart_layout parse_decimal (JArr (map JObj sample_records))
                  "FP.CPI.TOTL.ZG" ["USA"] true f)
        as (label & Hlab & Ht & _ & _ & Hh)
  end.
  - vm_compute; reflexivity.
  - injection Hlab as <-. split; [exact Ht|exact Hh].
Defined.

(** X16: when a run of the page goes to the network.  It sends a request,
    exactly one and the one of its arguments, when countries are selected
    and nothing is stored for the arguments; with no country selected, or
    with a stored value, it sends none. *)
Theorem page_sends_request_iff_needed
    {W : Type} (http_get : request -> W -> net_reply * W)
    (parse_numeric : string -> option (option Q))
    (country : list string) (indicator : string) (show_trend : bool)
    (start_date end_date : Z) (h : host W) :
  sent (snd (main parse_numeric http_get country indicator show_trend
                  start_date end_date h))
  = match country, cache h !! ((indicator, country, start_date, end_date) : fetch_args) with
    | _ :: _, None => sent h ++ [request_of (indicator, country, start_date, end_date)]
    | _, _ => sent h
    end.
Proof.
  destruct country as [|c0 cs]; [reflexivity|].
  rewrite (main_fetch http_get parse_numeric) by discriminate.
  cbn [snd]. rewrite fetch_log.
  destruct (cache h !! ((indicator, c0 :: cs, start_date, end_date) : fetch_args));
    reflexivity.
Qed.

(** ** More on the store and on the trend *)

(** X17: the store is keyed on the arguments as they are given, the
    country list in its order: after a first call has returned on a fresh
    host, a call with any other arguments -- the same countries in another
    order, say -- finds nothing stored and sends its own request. *)
Theorem other_arguments_are_fetched_anew
    {W : Type} (http_get : request -> W -> net_reply * W) (w : W)
    (a b : fetch_args) (v : option json) :
  fst (fetch_wb_data http_get a (fresh_host w)) = Ok v ->
  b <> a ->
  sent (snd (fetch_wb_data http_get b (snd (fetch_wb_data http_get a (fresh_host w)))))
  = [request_of a; request_of b].
Proof.
  intros Hv Hne. rewrite fetch_log, fetch_store, fetch_log, Hv.
  cbn [fresh_host cache sent]. rewrite lookup_empty.
  rewrite lookup_insert_ne by congruence. rewrite lookup_empty. reflexivity.
Qed.

Lemma other_arguments_are_fetched_anew_witness :
  sent (snd (fetch_wb_data scripted ("NY.GDP.MKTP.CD", ["CHN"; "USA"], 2000, 2020)
               (snd (fetch_wb_data scripted ("NY.GDP.MKTP.CD", ["USA"; "CHN"], 2000, 2020)
                       (fresh_host [Reply (ok_response (envelope sample_records));
                                    Reply (ok_response (envelope sample_records))])))))
  = [request_of ("NY.GDP.MKTP.CD", ["USA"; "CHN"], 2000, 2020);
     request_of ("NY.GDP.MKTP.CD", ["CHN"; "USA"], 2000, 2020)].
Proof.
  apply (other_arguments_are_fetched_anew scripted _ _ _
           (Some (JArr (map JObj sample_records)))).
  - reflexivity.
  - discriminate.
Defined.

(** X18: rows that all carry the same year.  When the rows of a country
    have one and the same non-zero year (a single row, or duplicates of a
    (country, year) pair), the fit returns, and its predicted value at that
    year is the mean of the values. *)
Theorem same_year_rows_predict_mean (x0 : Q) (xs ys : list Q) :
  xs <> [] ->
  length xs = length ys ->
  Forall (fun x => x == x0)%Q xs ->
  ~ (x0 == 0)%Q ->
  exists a b,
    polyfit1 xs ys = Ok (a, b)
    /\ (poly1d (a, b) x0 == Qsum ys / inject_Z (Z.of_nat (length xs)))%Q.
Proof.
  intros Hne Hl Hall Hx0.
  destruct (constant_abscissae x0 xs ys Hall Hl) as (H1 & _ & _). cbv zeta in H1.
  pose proof (sums_n_positive xs ys Hne) as Hn.
  assert (Hsp : (spread (sums xs ys) == 0)%Q).
  { apply spread_zero_iff. intros p q Hp Hq.
    rewrite Forall_forall in Hall. rewrite (Hall p Hp), (Hall q Hq). reflexivity. }
  assert (Hsx : ~ (s_x (sums xs ys) == 0)%Q).
  { rewrite H1. intros H. apply Qmult_integral in H. tauto. }
  rewrite polyfit1_sums by assumption.
  rewrite (lstsq_line_degenerate _ Hsp Hsx).
  eexists _, _. split; [reflexivity|].
  unfold poly1d. cbn [fst snd]. rewrite !Qred_correct, H1.
  change (s_y (sums xs ys)) with (Qsum ys).
  change (inject_Z (Z.of_nat (length xs))) with (s_n (sums xs ys)).
  field. split; assumption.
Qed.

Lemma same_year_rows_predict_mean_witness :
  exists a b,
    polyfit1 [2000; 2000]%Q [5; 9]%Q = Ok (a, b)
    /\ (poly1d (a, b) 2000 == 7)%Q.
Proof.
  destruct (same_year_rows_predict_mean 2000 [2000; 2000] [5; 9])%Q as (a & b & Hfit & Hp).
  - discriminate.
  - reflexivity.
  - repeat constructor.
  - discriminate.
  - exists a, b. split; [exact Hfit|]. rewrite Hp. reflexivity.
Defined.

(** X19: the trend of a country depends on that country's records only.
    For two batches on which lines 120-122 go through and which both have
    a country-code column, a country whose records are the same in both,
    in the same order, gets the same trend from both, whatever records of
    other countries they hold and however these are interleaved.  (A
    record of another country whose year does not convert is another
    matter: it makes line 121 raise for the whole batch.) *)
Theorem trend_depends_on_own_rows
    (parse_numeric : string -> option (option Q)) (recs1 recs2 : list record)
    (df1 df2 : DataFrame) (k : string) :
  normalize parse_numeric recs1 = Ok df1 ->
  normalize parse_numeric recs2 = Ok df2 ->
  has_key "countryiso3code" recs1 ->
  has_key "countryiso3code" recs2 ->
  List.filter (fun r => cell_is k (cell_of "countryiso3code" r)) recs1
  = List.filter (fun r => cell_is k (cell_of "countryiso3code" r)) recs2 ->
  estimate df1 k = estimate df2 k.
Proof.
  intros H1 H2 Hc1 Hc2 Hsame.
  apply normalize_inv in H1 as (Hd1 & Hv1 & _ & ->).
  apply normalize_inv in H2 as (Hd2 & Hv2 & _ & ->).
  rewrite !estimate_of_records by assumption. cbv zeta. rewrite Hsame. reflexivity.
Qed.

Lemma trend_depends_on_own_rows_witness :
  exists df1 df2,
    normalize parse_decimal sample_records = Ok df1
    /\ normalize parse_decimal
         [wb_record "FRA" "" (JNum 100); wb_record "USA" "2000" (JNum 5);
          wb_record "USA" "2001" (JNum 7)] = Ok df2
    /\ estimate df1 "USA" = estimate df2 "USA".
Proof.
  eexists _, _. split; [vm_compute; reflexivity|]. split; [vm_compute; reflexivity|].
  apply (trend_depends_on_own_rows parse_decimal sample_records
           [wb_record "FRA" "" (JNum 100); wb_record "USA" "2000" (JNum 5);
            wb_record "USA" "2001" (JNum 7)]).
  - reflexivity.
  - reflexivity.
  - exists (wb_record "USA" "2000" (JNum 5)).
    split; [apply elem_of_cons; left; reflexivity|discriminate].
  - exists (wb_record "USA" "2000" (JNum 5)).
    split; [apply elem_of_cons; right; apply elem_of_cons; left; reflexivity|discriminate].
  - reflexivity.
Defined.
